(** * PDF-Text-Excel-Converter: orchestration core

    A shallow embedding of the validation and orchestration layer of the
    converter (src/core/file_validator.py, src/core/pdf_processor.py,
    src/core/table_extractor.py) together with the properties its
    specification states about it.

    Python exceptions are values of type [exn]; a computation that may raise
    has type [result A = exn + A].  The external collaborators (PDF reader,
    page renderer, OCR engine, table detector) are fields of the record
    [collaborators]; nothing is assumed about them beyond what a theorem
    states as a hypothesis. *)

From Stdlib Require Import ZArith List String Ascii.
From stdpp Require Import base tactics option list numbers strings pretty sorting gmap.

Local Open Scope string_scope.
Local Open Scope list_scope.
Local Open Scope Z_scope.

(** ** Exceptions (src/utils/exceptions.py and the builtins the code meets) *)

Inductive exn_class : Set :=
  | PDFProcessingError
  | PDFReadError
  | OCRError
  | ConversionError
  | ValidationError
  | ConfigurationError
  | ValueError
  | IndexError
  | KeyError
  | TypeError
  | UnboundLocalError
  | AttributeError
  | LibraryError.   (* any other [Exception] raised by an external library *)

#[global] Instance exn_class_eq_dec : EqDecision exn_class.
Proof. solve_decision. Defined.

(** An exception object: its class and [str(e)]. *)
Record exn : Set := Raise { class_of : exn_class; str : string }.

#[global] Instance exn_eq_dec : EqDecision exn.
Proof. solve_decision. Defined.

(** [isinstance(e, (c1, ..., cn))].  Every class of exceptions.py derives
    from [PDFProcessingError]; the builtins and library errors do not. *)
Definition subclass (c d : exn_class) : bool :=
  bool_decide (c = d) ||
  match d, c with
  | PDFProcessingError, (PDFReadError | OCRError | ConversionError
                         | ValidationError | ConfigurationError) => true
  | _, _ => false
  end.

Definition isinstance (e : exn) (classes : list exn_class) : bool :=
  existsb (subclass (class_of e)) classes.

(** ** The error monad *)

Definition result (A : Type) : Type := exn + A.

Definition raise {A} (c : exn_class) (msg : string) : result A := inl (Raise c msg).

#[global] Instance result_ret : MRet result := fun _ x => inr x.
#[global] Instance result_bind : MBind result := fun _ _ f m =>
  match m with
  | inl e => inl e
  | inr x => f x
  end.

(** [try: body except Exception as e: handler e] *)
Definition try_except {A} (body : result A) (handler : exn → result A) : result A :=
  match body with
  | inl e => handler e
  | inr x => inr x
  end.

Definition returns {A} (m : result A) : Prop := ∃ x, m = inr x.

(** ** Python strings and lists *)

(** [str.isspace] on the ASCII range: TAB..CR, FS..US and the blank. *)
Definition isspace (c : ascii) : bool :=
  let n := N_of_ascii c in
  ((9 <=? n) && (n <=? 13) || (28 <=? n) && (n <=? 31) || (n =? 32))%N.

Fixpoint lstrip (s : string) : string :=
  match s with
  | String c s' => if isspace c then lstrip s' else s
  | EmptyString => EmptyString
  end.

Definition rstrip (s : string) : string := String.rev (lstrip (String.rev s)).

(** [s.strip()] *)
Definition strip (s : string) : string := rstrip (lstrip s).

(** Truth value of a string: non-empty. *)
Definition str_truthy (s : string) : bool := negb (bool_decide (s = "")).

(** [sep.join(l)] *)
Fixpoint join (sep : string) (l : list string) : string :=
  match l with
  | [] => ""
  | [x] => x
  | x :: l' => x +:+ sep +:+ join sep l'
  end.

(** [repr] of an [int] and of a list of [int]s: [[5, 0]]. *)
Definition repr_int (n : Z) : string := pretty n.

Definition repr_int_list (l : list Z) : string :=
  "[" +:+ join ", " (repr_int <$> l) +:+ "]".

(** [l[i]] for [0 <= i]. *)
Definition getitem {A} (l : list A) (i : nat) : result A :=
  match l !! i with
  | Some x => mret x
  | None => raise IndexError "list index out of range"
  end.

(** [min(l)] and [max(l)] *)
Definition py_min (l : list Z) : result Z :=
  match l with
  | [] => raise ValueError "min() arg is an empty sequence"
  | x :: l' => mret (foldl Z.min x l')
  end.

Definition py_max (l : list Z) : result Z :=
  match l with
  | [] => raise ValueError "max() arg is an empty sequence"
  | x :: l' => mret (foldl Z.max x l')
  end.

(** [list(range(a, b))] *)
Definition range (a b : Z) : list Z := seqZ a (b - a).

(** [sorted(l)] on integers. *)
Definition sorted (l : list Z) : list Z := merge_sort Z.le l.

(** [int(x)] for the values a confidence column holds: an [int], or a
    string holding a decimal literal (optional surrounding white space,
    optional sign, digits with single underscores between them).  Strings
    are sequences of 8-bit characters, and only ASCII blanks and digits are
    recognised; a confidence given as a float is outside the model. *)
Inductive conf_value : Set :=
  | ConfInt (n : Z)
  | ConfStr (s : string).

Definition digit_of (c : ascii) : option Z :=
  let n := N_of_ascii c in
  if ((48 <=? n) && (n <=? 57))%N then Some (Z.of_N n - 48) else None.

(** Digits after the first one: [acc] is the value read so far, [us] tells
    that the previous character was an underscore. *)
Fixpoint int_digits (s : string) (acc : Z) (us : bool) : option Z :=
  match s with
  | EmptyString => if us then None else Some acc
  | String c s' =>
      match digit_of c with
      | Some d => int_digits s' (10 * acc + d) false
      | None =>
          if bool_decide (c = "_"%char) && negb us then int_digits s' acc true
          else None
      end
  end.

Definition int_unsigned (s : string) : option Z :=
  match s with
  | EmptyString => None
  | String c s' =>
      match digit_of c with
      | Some d => int_digits s' d false
      | None => None
      end
  end.

Definition int_literal (s : string) : option Z :=
  match strip s with
  | String "-" s' => Z.opp <$> int_unsigned s'
  | String "+" s' => int_unsigned s'
  | s' => int_unsigned s'
  end.

Definition int_ (x : conf_value) : result Z :=
  match x with
  | ConfInt n => mret n
  | ConfStr s =>
      match int_literal s with
      | Some n => mret n
      | None => raise ValueError ("invalid literal for int() with base 10: '" +:+ s +:+ "'")
      end
  end.

(** ** Confidence filter (pdf_processor.py, TextExtractorImpl) *)

(** The OCR engine's word table: [text_data['text']] and
    [text_data['conf']]. *)
Record text_data : Set := TextData {
  td_text : list string;
  td_conf : list conf_value
}.

(** The loop of [_filter_text_by_confidence]: [i] is the index that
    [enumerate] has reached, [filtered_words] the list built so far. *)
Fixpoint filter_loop (confidence_threshold : Z) (conf : list conf_value)
    (i : nat) (text : list string) (filtered_words : list string)
    : result (list string) :=
  match text with
  | [] => mret filtered_words
  | word :: text' =>
      c ← getitem conf i;
      confidence ← int_ c;
      if (confidence_threshold <=? confidence) && str_truthy (strip word)
      then filter_loop confidence_threshold conf (S i) text' (filtered_words ++ [word])
      else filter_loop confidence_threshold conf (S i) text' filtered_words
  end.

Definition filtered_words (confidence_threshold : Z) (data : text_data)
    : result (list string) :=
  filter_loop confidence_threshold (td_conf data) 0 (td_text data) [].

Definition _filter_text_by_confidence (confidence_threshold : Z) (data : text_data)
    : result string :=
  ws ← filtered_words confidence_threshold data;
  mret (join " " ws).

(** ** Byte streams ([io.BytesIO]) *)

Abbreviation bytes := (list Byte.byte).

(** An in-memory stream: its buffer, its read position (never negative) and
    whether it has been closed. *)
Record BytesIO : Set := Stream {
  buffer : bytes;
  position : nat;
  closed : bool
}.

(** Stream operations thread the stream and may raise. *)
Record io (A : Type) : Type := IO { run : BytesIO → result A * BytesIO }.
Arguments IO {A} _.
Arguments run {A} _ _.

#[global] Instance io_ret : MRet io := fun _ x => IO (fun file => (inr x, file)).
#[global] Instance io_bind : MBind io := fun _ _ f m => IO (fun file =>
  match run m file with
  | (inl e, file') => (inl e, file')
  | (inr x, file') => run (f x) file'
  end).

Definition io_raise {A} (e : exn) : io A := IO (fun file => (inl e, file)).

Definition io_try_except {A} (body : io A) (handler : exn → io A) : io A :=
  IO (fun file =>
    match run body file with
    | (inl e, file') => run (handler e) file'
    | (inr x, file') => (inr x, file')
    end).

Definition check_open : io unit := IO (fun file =>
  if closed file then (raise ValueError "I/O operation on closed file.", file)
  else (inr (), file)).

(** [file.tell()] *)
Definition tell : io Z :=
  _ ← check_open;
  IO (fun file => (inr (Z.of_nat (position file)), file)).

(** [file.seek(offset)]: absolute positioning; a position past the end is
    allowed, a negative one is refused. *)
Definition seek (offset : Z) : io Z :=
  _ ← check_open;
  if offset <? 0
  then io_raise (Raise ValueError ("negative seek value " +:+ repr_int offset))
  else IO (fun file =>
    (inr offset, Stream (buffer file) (Z.to_nat offset) (closed file))).

(** [file.seek(offset, 2)]: relative to the end, clamped at 0. *)
Definition seek_end (offset : Z) : io Z :=
  _ ← check_open;
  IO (fun file =>
    let p := Z.max 0 (Z.of_nat (length (buffer file)) + offset) in
    (inr p, Stream (buffer file) (Z.to_nat p) (closed file))).

(** [file.read(size)] for [0 <= size]: at most [size] bytes from the
    position, which advances by the number of bytes read. *)
Definition read (size : nat) : io bytes :=
  _ ← check_open;
  IO (fun file =>
    let data := take size (drop (position file) (buffer file)) in
    (inr data, Stream (buffer file) (position file + length data)%nat (closed file))).

(** [header.startswith(prefix)] *)
Fixpoint startswith (header prefix : bytes) : bool :=
  match prefix, header with
  | [], _ => true
  | p :: prefix', h :: header' => Byte.eqb h p && startswith header' prefix'
  | _ :: _, [] => false
  end.

(** [b'%PDF-'] *)
Definition pdf_magic : bytes := [Byte.x25; Byte.x50; Byte.x44; Byte.x46; Byte.x2d].

(** ** File validator (file_validator.py, FileValidatorImpl) *)

Definition validate_file_type : io bool :=
  io_try_except
    (current_pos ← tell;
     _ ← seek 0;
     header ← read 8;
     _ ← seek current_pos;
     if startswith header pdf_magic then mret true
     else io_raise (Raise ValidationError "File is not a valid PDF"))
    (fun e =>
       if isinstance e [ValidationError] then io_raise e
       else io_raise (Raise ValidationError ("Cannot validate file type: " +:+ str e))).

(** [f"{file_size / (1024 * 1024):.2f}"].  Dividing by [2^20] is exact in
    binary floating point, so the digits are those of the rational
    [file_size / 2^20] rounded to hundredths, ties to even. *)
Definition two_digits (n : Z) : string :=
  if n <? 10 then "0" +:+ repr_int n else repr_int n.

Definition format_mb (file_size : Z) : string :=
  let q := (file_size * 100) `div` 1048576 in
  let r := (file_size * 100) `mod` 1048576 in
  let h := if (524288 <? r) || ((r =? 524288) && Z.odd q) then q + 1 else q in
  repr_int (h `div` 100) +:+ "." +:+ two_digits (h `mod` 100).

(** The comparison [file_size / (1024 * 1024) > max_size_mb] is taken on the
    integers: the quotient is exact. *)
Definition validate_file_size (max_size_mb : Z) : io bool :=
  io_try_except
    (current_pos ← tell;
     _ ← seek_end 0;
     file_size ← tell;
     _ ← seek current_pos;
     if max_size_mb * 1048576 <? file_size
     then io_raise (Raise ValidationError
            ("File size (" +:+ format_mb file_size +:+ " MB) exceeds maximum allowed size ("
             +:+ repr_int max_size_mb +:+ " MB)"))
     else mret true)
    (fun e =>
       if isinstance e [ValidationError] then io_raise e
       else io_raise (Raise ValidationError ("Cannot validate file size: " +:+ str e))).

(** ** Python objects as far as the table metadata reads them *)

#[warnings="-register-all"]
Inductive pyval : Set :=
  | PyNone
  | PyInt (n : Z)
  | PyStr (s : string)
  | PyList (l : list pyval)
  | PyDict (d : list (Z * pyval)).   (* a dict keyed by integers, in insertion order *)

(** [bool(v)] *)
Definition truthy (v : pyval) : bool :=
  match v with
  | PyNone => false
  | PyInt n => negb (n =? 0)
  | PyStr s => str_truthy s
  | PyList l => negb (bool_decide (length l = 0%nat))
  | PyDict d => negb (bool_decide (length d = 0%nat))
  end.

(** [len(v)] *)
Definition len (v : pyval) : result Z :=
  match v with
  | PyNone => raise TypeError "object of type 'NoneType' has no len()"
  | PyInt _ => raise TypeError "object of type 'int' has no len()"
  | PyStr s => mret (Z.of_nat (String.length s))
  | PyList l => mret (Z.of_nat (length l))
  | PyDict d => mret (Z.of_nat (length d))
  end.

(** [v[0]] *)
Definition first_item (v : pyval) : result pyval :=
  match v with
  | PyNone => raise TypeError "'NoneType' object is not subscriptable"
  | PyInt _ => raise TypeError "'int' object is not subscriptable"
  | PyStr EmptyString => raise IndexError "string index out of range"
  | PyStr (String c _) => mret (PyStr (String c EmptyString))
  | PyList l => getitem l 0
  | PyDict d =>
      match list_find (λ kv, kv.1 = 0) d with
      | Some (_, (_, x)) => mret x
      | None => raise KeyError "0"
      end
  end.

(** An object is the outcome of reading each of its attributes: absent,
    a value, or a property whose getter raises. *)
Inductive attribute : Set :=
  | Absent
  | Value (v : pyval)
  | Raising (e : exn).

Abbreviation pyobject := (string → attribute).

(** [getattr(o, name, default)], [hasattr(o, name)] and [o.name]: only a
    missing attribute is covered by the default. *)
Definition getattr (o : pyobject) (name : string) (default : pyval) : result pyval :=
  match o name with
  | Absent => mret default
  | Value v => mret v
  | Raising e => inl e
  end.

Definition hasattr (o : pyobject) (name : string) : result bool :=
  match o name with
  | Absent => mret false
  | Value _ => mret true
  | Raising e => inl e
  end.

Definition attr (o : pyobject) (name : string) : result pyval :=
  match o name with
  | Absent => raise AttributeError ("object has no attribute '" +:+ name +:+ "'")
  | Value v => mret v
  | Raising e => inl e
  end.

(** ** External collaborators *)

(** A [pathlib.Path] as the code reads it: [str(p)] and [p.suffix]. *)
Record Path : Set := { path_str : string; suffix : string }.

Record collaborators : Type := {
  image : Type;
  paddle_ocr : Type;
  document : Type;
  (** [file_path.exists()] *)
  path_exists : Path → bool;
  (** [len(PdfReader(open(file_path, 'rb')).pages)] *)
  reader_pages : Path → result Z;
  (** [open(file_path, 'rb').read()] *)
  read_file : Path → result bytes;
  (** [pdf2image.convert_from_bytes(pdf_bytes, first_page, last_page, dpi)] *)
  convert_from_bytes : bytes → Z → Z → Z → result (list image);
  (** [pytesseract.image_to_data(image, lang, config, Output.DICT)] *)
  image_to_data : image → string → string → result text_data;
  (** [PaddleOCR(lang, kw={"use_dilation": True, "use_angle_cls": True})] *)
  PaddleOCR : string → result paddle_ocr;
  (** [PDF(path, pages, detect_rotation=True, pdf_text_extraction=True)] *)
  PDF : string → option (list Z) → result document;
  (** [doc.extract_tables(ocr, implicit_rows=True, borderless_tables=True,
      min_confidence)] *)
  doc_extract_tables : document → paddle_ocr → Z → result (list pyobject);
  (** [tempfile.NamedTemporaryFile(suffix, delete=False).name] *)
  NamedTemporaryFile : string → result string;
  (** [doc.to_xlsx(dest, ocr, implicit_rows=True, borderless_tables=True,
      min_confidence)] *)
  to_xlsx : document → string → paddle_ocr → Z → result unit
}.

(** [s.lower()] on ASCII letters. *)
Definition lower_char (c : ascii) : ascii :=
  let n := N_of_ascii c in
  if ((65 <=? n) && (n <=? 90))%N then ascii_of_N (n + 32) else c.

Fixpoint lower (s : string) : string :=
  match s with
  | EmptyString => EmptyString
  | String c s' => String (lower_char c) (lower s')
  end.

(** [l[i]] with Python's negative indices. *)
Definition getitemZ {A} (l : list A) (i : Z) : result A :=
  let j := if i <? 0 then i + Z.of_nat (length l) else i in
  if j <? 0 then raise IndexError "list index out of range"
  else getitem l (Z.to_nat j).

(** Page-range resolution, the block that opens both [extract_text] and
    [extract_tables] ("Determine pages to process"). *)
Definition invalid_pages (total_pages : Z) (pages : list Z) : list Z :=
  filter (λ p, p < 1 ∨ p > total_pages) pages.

Definition pages_to_process (total_pages : Z) (pages : option (list Z)) : result (list Z) :=
  match pages with
  | None => mret (range 1 (total_pages + 1))
  | Some pages =>
      let invalid := invalid_pages total_pages pages in
      if bool_decide (invalid ≠ [])
      then raise ValidationError ("Invalid page numbers: " +:+ repr_int_list invalid)
      else mret (sorted pages)
  end.

(** ** Table extractor helpers (table_extractor.py, TableExtractorImpl) *)

Definition language_mapping : gmap string string :=
  list_to_map
    [("eng", "en"); ("fra", "fr"); ("deu", "de"); ("spa", "es"); ("ita", "it");
     ("por", "pt"); ("rus", "ru"); ("jpn", "ja"); ("kor", "ko");
     ("chi_sim", "ch"); ("chi_tra", "ch")].

(** [language_mapping.get(language, 'en')] *)
Definition _convert_language_code (language : string) : string :=
  default "en" (language_mapping !! language).

(** The [table_info] dictionary of table [i] (0-based), evaluated entry by
    entry in the order of the dictionary display. *)
Definition table_info (i : nat) (table : pyobject) : result (gmap string pyval) :=
  page_number ← getattr table "page" (PyStr "Unknown");
  bbox ← getattr table "bbox" PyNone;
  confidence ← getattr table "confidence" PyNone;
  has_content ← hasattr table "content";
  rows ← (if has_content : bool
          then content ← attr table "content"; len content
          else mret 0);
  has_content' ← hasattr table "content";
  nonempty ← (if has_content' : bool
              then content ← attr table "content"; mret (truthy content)
              else mret false);
  columns ← (if nonempty : bool
             then content ← attr table "content";
                  row ← first_item content;
                  len row
             else mret 0);
  mret (list_to_map
          [("table_id", PyInt (Z.of_nat i + 1)); ("page_number", page_number);
           ("bbox", bbox); ("confidence", confidence);
           ("rows", PyInt rows); ("columns", PyInt columns)]).

(** The dictionary appended by the [except] clause. *)
Definition error_info (i : nat) (e : exn) : gmap string pyval :=
  list_to_map
    [("table_id", PyInt (Z.of_nat i + 1)); ("page_number", PyStr "Unknown");
     ("error", PyStr (str e))].

Fixpoint metadata_loop (i : nat) (extracted_tables : list pyobject)
    (metadata : list (gmap string pyval)) : list (gmap string pyval) :=
  match extracted_tables with
  | [] => metadata
  | table :: rest =>
      match table_info i table with
      | inr info => metadata_loop (S i) rest (metadata ++ [info])
      | inl e => metadata_loop (S i) rest (metadata ++ [error_info i e])
      end
  end.

Definition _generate_tables_metadata (extracted_tables : list pyobject) (pages : list Z)
    : list (gmap string pyval) :=
  metadata_loop 0 extracted_tables [].

Section Pipelines.

Context (env : collaborators).

(** ** PDF processor (pdf_processor.py, PDFProcessorImpl) *)

Definition validate_file (file_path : Path) : result bool :=
  try_except
    (_ ← (if negb (path_exists env file_path)
          then raise PDFReadError ("File does not exist: " +:+ path_str file_path)
          else mret ());
     _ ← (if negb (bool_decide (lower (suffix file_path) = ".pdf"))
          then raise ValidationError ("File is not a PDF: " +:+ path_str file_path)
          else mret ());
     n ← reader_pages env file_path;
     if n =? 0 then raise PDFReadError "PDF file contains no pages"
     else mret true)
    (fun e =>
       if isinstance e [PDFReadError; ValidationError] then inl e
       else raise PDFReadError ("Invalid PDF file: " +:+ str e)).

Definition get_page_count (file_path : Path) : result Z :=
  try_except
    (_ ← validate_file file_path;
     page_count ← reader_pages env file_path;
     mret page_count)
    (fun e =>
       if isinstance e [PDFReadError] then inl e
       else raise PDFReadError ("Cannot read PDF file: " +:+ str e)).

(** ** Text extractor (pdf_processor.py, TextExtractorImpl) *)

(** [[images[i] for i in page_indices if i < len(images)]] *)
Fixpoint select_images (images : list (image env)) (page_indices : list Z)
    : result (list (image env)) :=
  match page_indices with
  | [] => mret []
  | i :: rest =>
      if i <? Z.of_nat (length images)
      then x ← getitemZ images i;
           xs ← select_images images rest;
           mret (x :: xs)
      else select_images images rest
  end.

Definition _convert_pdf_to_images (file_path : Path) (pages : list Z)
    : result (list (image env)) :=
  try_except
    (pdf_bytes ← read_file env file_path;
     if bool_decide (length pages = 1%nat)
     then
       first_page ← getitem pages 0;
       last_page ← getitem pages 0;
       convert_from_bytes env pdf_bytes first_page last_page 300
     else
       first_page ← py_min pages;
       last_page ← py_max pages;
       images ← convert_from_bytes env pdf_bytes first_page last_page 300;
       lo ← py_min pages;
       hi ← py_max pages;
       if bool_decide ((list_to_set pages : gset Z) ≠ list_to_set (range lo (hi + 1)))
       then
         lo' ← py_min pages;
         select_images images ((λ p, p - lo') <$> pages)
       else mret images)
    (fun e => raise OCRError ("Failed to convert PDF to images: " +:+ str e)).

(** The body of the [try] inside the page loop; the first component tells
    whether [page_num] has been assigned when the body ends. *)
Definition ocr_page (confidence_threshold : Z) (pages : list Z) (language : string)
    (i : nat) (image_ : image env) : option Z * result string :=
  match getitem pages i with
  | inl e => (None, inl e)
  | inr page_num =>
      (Some page_num,
       let custom_config := "--oem 3 --psm 6 -l " +:+ language in
       text_data ← image_to_data env image_ language custom_config;
       _filter_text_by_confidence confidence_threshold text_data)
  end.

(** The page loop of [extract_text].  [page_num] is the local variable the
    [except] clause formats into its warning: [None] while it is unbound,
    in which case the clause itself raises (with the wording of
    CPython 3.11 and later). *)
Fixpoint ocr_loop (confidence_threshold : Z) (pages : list Z) (language : string)
    (i : nat) (images : list (image env)) (page_num : option Z)
    (extracted_texts : list string) : result (list string) :=
  match images with
  | [] => mret extracted_texts
  | image_ :: images' =>
      match ocr_page confidence_threshold pages language i image_ with
      | (assigned, inr filtered_text) =>
          ocr_loop confidence_threshold pages language (S i) images'
            (from_option Some page_num assigned) (extracted_texts ++ [filtered_text])
      | (assigned, inl e) =>
          match from_option Some page_num assigned with
          | None =>
              raise UnboundLocalError
                "cannot access local variable 'page_num' where it is not associated with a value"
          | Some n =>
              ocr_loop confidence_threshold pages language (S i) images'
                (Some n) (extracted_texts ++ [""])
          end
      end
  end.

Definition extract_text (confidence_threshold : Z) (file_path : Path)
    (pages : option (list Z)) (language : string) : result (list string) :=
  try_except
    (_ ← validate_file file_path;
     total_pages ← get_page_count file_path;
     pages_to_process ← pages_to_process total_pages pages;
     images ← _convert_pdf_to_images file_path pages_to_process;
     ocr_loop confidence_threshold pages_to_process language 0 images None [])
    (fun e =>
       if isinstance e [PDFReadError; ValidationError] then inl e
       else raise OCRError ("OCR processing failed: " +:+ str e)).

(** ** Table extractor (table_extractor.py, TableExtractorImpl) *)

Definition extract_tables (confidence_threshold : Z) (file_path : Path)
    (pages : option (list Z)) (language : string)
    : result (string * list (gmap string pyval)) :=
  try_except
    (_ ← validate_file file_path;
     total_pages ← get_page_count file_path;
     pages_to_process ← pages_to_process total_pages pages;
     let ocr_language := _convert_language_code language in
     paddle ← PaddleOCR env ocr_language;
     let zero_indexed_pages :=
       if bool_decide (pages_to_process ≠ [])
       then Some ((λ p, p - 1) <$> pages_to_process) else None in
     doc ← PDF env (path_str file_path) zero_indexed_pages;
     extracted_tables ← doc_extract_tables env doc paddle confidence_threshold;
     excel_file_path ← NamedTemporaryFile env ".xlsx";
     _ ← to_xlsx env doc excel_file_path paddle confidence_threshold;
     let tables_metadata := _generate_tables_metadata extracted_tables pages_to_process in
     mret (excel_file_path, tables_metadata))
    (fun e =>
       if isinstance e [PDFReadError; ValidationError] then inl e
       else raise ConversionError ("Table extraction failed: " +:+ str e)).

End Pipelines.

(** * Vocabulary of the properties *)

(** The OCR word output as the specification sees it: a sequence of
    (word, confidence) pairs, and the table the engine returns for it. *)
Definition ocr_words (words : list (string * Z)) : text_data :=
  TextData (words.*1) (ConfInt <$> words.*2).

(** The specification's reading of the filter: the words whose confidence
    reaches the threshold and whose trimmed text is not empty, in order. *)
Definition retained (t : Z) (words : list (string * Z)) : list string :=
  (filter (λ wc, t ≤ wc.2 ∧ strip wc.1 ≠ "") words).*1.

Definition known_codes : list string :=
  ["eng"; "fra"; "deu"; "spa"; "ita"; "por"; "rus"; "jpn"; "kor"; "chi_sim"; "chi_tra"].

(** The entry the loop appends for table [i]. *)
Definition table_entry (i : nat) (table : pyobject) : gmap string pyval :=
  match table_info i table with
  | inr info => info
  | inl e => error_info i e
  end.

(** A populated record: the six fields of [table_info] and no error field. *)
Definition fully_populated (i : nat) (info : gmap string pyval) : Prop :=
  info !! "table_id" = Some (PyInt (Z.of_nat i + 1))
  ∧ is_Some (info !! "page_number")
  ∧ is_Some (info !! "bbox")
  ∧ is_Some (info !! "confidence")
  ∧ (∃ rows, info !! "rows" = Some (PyInt rows))
  ∧ (∃ columns, info !! "columns" = Some (PyInt columns))
  ∧ info !! "error" = None.

(** Table #1 is a two-by-two table; reading the rows of table #2 raises. *)
Definition table_1 : pyobject := λ name,
  if bool_decide (name = "page") then Value (PyInt 0)
  else if bool_decide (name = "content")
       then Value (PyDict [(0, PyList [PyStr "a"; PyStr "b"]);
                           (1, PyList [PyStr "c"; PyStr "d"])])
       else Absent.

Definition table_2 : pyobject := λ name,
  if bool_decide (name = "content") then Raising (Raise LibraryError "corrupt table")
  else Absent.

(** The document at [file_path] passes validation and has [total] pages. *)
Definition readable (env : collaborators) (file_path : Path) (total : Z) : Prop :=
  validate_file env file_path = inr true ∧ get_page_count env file_path = inr total.

(** A test double for the collaborators, in the manner of the mocks of the
    unit tests: a document is the list of what the OCR engine reads on each
    of its pages, and rendering pages [first..last] returns those pages. *)
Definition mock_env (doc : list (result text_data)) : collaborators := {|
  image := result text_data;
  paddle_ocr := unit;
  document := unit;
  path_exists := λ _, true;
  reader_pages := λ _, inr (Z.of_nat (length doc));
  read_file := λ _, inr pdf_magic;
  convert_from_bytes := λ _ first_page last_page _,
    inr (take (Z.to_nat (last_page - first_page + 1)) (drop (Z.to_nat (first_page - 1)) doc));
  image_to_data := λ image_ _ _, image_;
  PaddleOCR := λ _, inr ();
  PDF := λ _ _, inr ();
  doc_extract_tables := λ _ _ _, inr [];
  NamedTemporaryFile := λ suffix_, inr ("/tmp/tables" +:+ suffix_);
  to_xlsx := λ _ _ _ _, inr ()
|}.

Definition sample_pdf : Path := {| path_str := "sample.pdf"; suffix := ".pdf" |}.

Definition hello_page : result text_data :=
  inr (TextData ["Hello"; "World"; ""] [ConfStr "85"; ConfStr "90"; ConfStr "0"]).

Definition unreadable_page : result text_data :=
  inl (Raise LibraryError "tesseract failed").

(** A message mentions a text when the text occurs in it. *)
Definition mentions (msg sub : string) : Prop := ∃ pre post, msg = pre +:+ sub +:+ post.

(** What OCR and the confidence filter make of one rendered page. *)
Definition recognize (env : collaborators) (t : Z) (language : string)
    (image_ : image env) : result string :=
  text_data ← image_to_data env image_ language ("--oem 3 --psm 6 -l " +:+ language);
  _filter_text_by_confidence t text_data.

(** The text the loop records for the image at index [i]. *)
Definition page_text (env : collaborators) (t : Z) (pages : list Z) (language : string)
    (i : nat) (image_ : image env) : string :=
  match pages !! i, recognize env t language image_ with
  | Some _, inr text => text
  | _, _ => ""
  end.

(** The renderer contract the page-count claims rely on: the file can be
    read, and rendering pages [first..last] yields one image per page. *)
Definition renders_range (env : collaborators) (file_path : Path) (first last : Z)
    (images : list (image env)) : Prop :=
  ∃ pdf_bytes, read_file env file_path = inr pdf_bytes
               ∧ convert_from_bytes env pdf_bytes first last 300 = inr images
               ∧ length images = Z.to_nat (last - first + 1).

(** * The rest of the validation and presentation code *)

(** ** Filename validation (file_validator.py, FileValidatorImpl) *)

(** [FileValidatorImpl.__init__]: [allowed_extensions or ['.pdf']]. *)
Definition FileValidatorImpl_init (allowed_extensions : option (list string)) : list string :=
  match allowed_extensions with
  | Some (ext :: exts) => ext :: exts
  | _ => [".pdf"]
  end.

(** [sub in s] on strings. *)
Fixpoint str_contains (s sub : string) : bool :=
  String.prefix sub s ||
  match s with
  | EmptyString => false
  | String _ s' => str_contains s' sub
  end.

(** [s.split('/')] *)
Fixpoint split_slash (s : string) : list string :=
  match s with
  | EmptyString => [EmptyString]
  | String c s' =>
      if bool_decide (c = "/"%char) then EmptyString :: split_slash s'
      else match split_slash s' with
           | part :: parts => String c part :: parts
           | [] => [String c EmptyString]
           end
  end.

(** [Path(filename).name] for a POSIX path: the last component that is
    neither empty nor ["."]; the empty string when there is none. *)
Definition path_name (filename : string) : string :=
  List.last (filter (λ part, part ≠ "" ∧ part ≠ ".") (split_slash filename)) "".

(** The text from the last ["."] of [s] on, if [s] has one. *)
Fixpoint from_last_dot (s : string) : option string :=
  match s with
  | EmptyString => None
  | String c s' =>
      match from_last_dot s' with
      | Some t => Some t
      | None => if bool_decide (c = "."%char) then Some s else None
      end
  end.

(** [Path(filename).suffix] (CPython up to 3.13): with [i] the index of the
    last dot of the name, [name[i:]] when [0 < i < len(name) - 1], else the
    empty string. *)
Definition path_suffix (filename : string) : string :=
  match path_name filename with
  | EmptyString => ""
  | String _ rest =>
      match from_last_dot rest with
      | Some t => if bool_decide (t = ".") then "" else t
      | None => ""
      end
  end.

(** The quotation mark, as a one-character string. *)
Definition quote : string := String (ascii_of_N 34) EmptyString.

Definition dangerous_chars : list string :=
  [".."; "/"; "\"; ":"; "*"; "?"; quote; "<"; ">"; "|"].

Definition validate_filename (allowed_extensions : list string) (filename : string)
    : result bool :=
  try_except
    (_ ← (if negb (str_truthy filename)
          then raise ValidationError "Filename cannot be empty"
          else mret ());
     let extension := lower (path_suffix filename) in
     _ ← (if negb (bool_decide (extension ∈ allowed_extensions))
          then raise ValidationError
                 ("File extension '" +:+ extension +:+ "' not allowed. Allowed extensions: "
                  +:+ join ", " allowed_extensions)
          else mret ());
     if existsb (str_contains filename) dangerous_chars
     then raise ValidationError "Filename contains invalid characters"
     else mret true)
    (fun e =>
       if isinstance e [ValidationError] then inl e
       else raise ValidationError ("Invalid filename: " +:+ str e)).

(** ** Upload check (ui/app.py, PDFConverterApp._render_upload_section) *)

(** What the upload section does with a file: keep it and announce it, show
    the message of a [PDFProcessingError], or let another exception go. *)
Inductive upload_outcome : Set :=
  | Uploaded (message : string)
  | Refused (message : string)
  | Escaped (e : exn).

(** A pure computation inside the stream monad. *)
Definition io_lift {A} (r : result A) : io A := IO (fun file => (r, file)).

(** The body of the [try]: the three validators on a fresh
    [io.BytesIO(uploaded_file.read())]; the size limit is
    [config.processing.max_file_size_mb], the validator is built with its
    default extensions.  Streamlit calls are taken to succeed. *)
Definition _render_upload_section (max_file_size_mb : Z) (content : bytes) (name : string)
    : upload_outcome :=
  let file_io := Stream content 0 false in
  let checks : io bool :=
    _ ← validate_file_type;
    _ ← validate_file_size max_file_size_mb;
    io_lift (validate_filename (FileValidatorImpl_init None) name) in
  match (run checks file_io).1 with
  | inr _ => Uploaded ("File '" +:+ name +:+ "' uploaded successfully!")
  | inl e =>
      if isinstance e [PDFProcessingError] then Refused (str e) else Escaped e
  end.

(** ** Text download (ui/app.py, PDFConverterApp._perform_text_extraction) *)

(** The line feed, as a one-character string. *)
Definition newline : string := String (ascii_of_N 10) EmptyString.

(** [selected_pages[i] if selected_pages else i + 1] *)
Definition page_label (selected_pages : option (list Z)) (i : nat) : result Z :=
  match selected_pages with
  | Some (p :: ps) => getitem (p :: ps) i
  | _ => mret (Z.of_nat i + 1)
  end.

(** The display loop: one labelled text area per extracted text. *)
Fixpoint display_pages (selected_pages : option (list Z)) (i : nat) (texts : list string)
    : result unit :=
  match texts with
  | [] => mret ()
  | _ :: texts' =>
      _ ← page_label selected_pages i;
      display_pages selected_pages (S i) texts'
  end.

(** [[f"=== Page {label} ===\n{text}" for i, text in enumerate(texts)]] *)
Fixpoint page_blocks (selected_pages : option (list Z)) (i : nat) (texts : list string)
    : result (list string) :=
  match texts with
  | [] => mret []
  | text :: texts' =>
      page_num ← page_label selected_pages i;
      blocks ← page_blocks selected_pages (S i) texts';
      mret (("=== Page " +:+ repr_int page_num +:+ " ===" +:+ newline +:+ text) :: blocks)
  end.

(** The text handed to the download button.  Streamlit calls are taken to
    succeed. *)
Definition _perform_text_extraction (env : collaborators) (confidence_threshold : Z)
    (pdf_path : Path) (language : string) (selected_pages : option (list Z))
    : result string :=
  extracted_texts ← extract_text env confidence_threshold pdf_path selected_pages language;
  _ ← display_pages selected_pages 0 extracted_texts;
  blocks ← page_blocks selected_pages 0 extracted_texts;
  mret (join (newline +:+ newline) blocks).

(** The table counterpart: the metadata shown and the bytes of the
    spreadsheet, read back through [open_rb] ([open(excel_path, 'rb').read()]). *)
Definition _perform_table_extraction (env : collaborators) (open_rb : string → result bytes)
    (confidence_threshold : Z) (pdf_path : Path) (language : string)
    (selected_pages : option (list Z)) : result (list (gmap string pyval) * bytes) :=
  '(excel_path, tables_metadata) ←
     extract_tables env confidence_threshold pdf_path selected_pages language;
  data ← open_rb excel_path;
  mret (tables_metadata, data).

(** What [_perform_conversion] leaves on the page. *)
Inductive conversion_outcome : Type :=
  | TextReady (all_text : string)
  | TablesReady (tables_metadata : list (gmap string pyval)) (data : bytes)
  | ErrorShown (title details : string).

Definition _perform_conversion (env : collaborators) (open_rb : string → result bytes)
    (confidence_threshold : Z) (conversion_type language : string)
    (selected_pages : option (list Z)) (pdf_path : Path) : conversion_outcome :=
  let shown (e : exn) :=
    if isinstance e [PDFProcessingError] then ErrorShown "Processing Failed" (str e)
    else ErrorShown "Unexpected Error" ("An unexpected error occurred: " +:+ str e) in
  if bool_decide (conversion_type = "Text Extraction")
  then match _perform_text_extraction env confidence_threshold pdf_path language
               selected_pages with
       | inr all_text => TextReady all_text
       | inl e => shown e
       end
  else match _perform_table_extraction env open_rb confidence_threshold pdf_path language
               selected_pages with
       | inr (tables_metadata, data) => TablesReady tables_metadata data
       | inl e => shown e
       end.

(** ** The first implementation (functions.py) *)

Record legacy_collaborators : Type := {
  legacy_image : Type;
  (** [open(pdf_file_path, 'rb').read()] *)
  legacy_read : string → result bytes;
  (** [pdf2image.convert_from_bytes(pdf_bytes)] *)
  convert_all : bytes → result (list legacy_image);
  (** [pdf2image.convert_from_bytes(pdf_bytes, first_page, last_page)] *)
  convert_range : bytes → Z → Z → result (list legacy_image);
  (** [pytesseract.image_to_string(image, lang)] *)
  image_to_string : legacy_image → string → result string
}.

(** [[f(x) for x in l]] when [f] may raise. *)
Fixpoint comprehension {A B} (f : A → result B) (l : list A) : result (list B) :=
  match l with
  | [] => mret []
  | x :: l' =>
      y ← f x;
      ys ← comprehension f l';
      mret (y :: ys)
  end.

Definition convert_pdf_to_text (env : legacy_collaborators) (pdf_file_path language : string)
    (selected_pages : option (list Z)) : result (list string * Z) :=
  let lang := if bool_decide (language = "English") then "eng" else "fra" in
  pdf_bytes ← legacy_read env pdf_file_path;
  images ← match selected_pages with
           | None | Some [] => convert_all env pdf_bytes
           | Some pages =>
               first_page ← py_min pages;
               last_page ← py_max pages;
               convert_range env pdf_bytes first_page last_page
           end;
  texts ← comprehension (λ image_, image_to_string env image_ lang) images;
  mret (texts, Z.of_nat (length images)).

(** * Vocabulary of the further properties *)

(** The text of page [p] when [images] are the renderings of the pages from
    [lo] on: what OCR and the filter make of its image, or the empty string
    when OCR raises. *)
Definition text_of_page (env : collaborators) (t : Z) (language : string) (lo : Z)
    (images : list (image env)) (p : Z) : string :=
  match images !! Z.to_nat (p - lo) with
  | Some image_ =>
      match recognize env t language image_ with
      | inr text => text
      | inl _ => ""
      end
  | None => ""
  end.

(** One block of the text download: the page header and the page text. *)
Definition page_block (label : Z) (text : string) : string :=
  "=== Page " +:+ repr_int label +:+ " ===" +:+ newline +:+ text.

(** A test double for the collaborators of functions.py: a document is the
    list of what OCR reads on each page. *)
Definition legacy_mock (doc : list (result string)) : legacy_collaborators := {|
  legacy_image := result string;
  legacy_read := λ _, inr pdf_magic;
  convert_all := λ _, inr doc;
  convert_range := λ _ first_page last_page,
    inr (take (Z.to_nat (last_page - first_page + 1)) (drop (Z.to_nat (first_page - 1)) doc));
  image_to_string := λ image_ _, image_
|}.

(** A page on which OCR reads the single word [word], with confidence 95. *)
Definition page_saying (word : string) : result text_data :=
  inr (TextData [word] [ConfInt 95]).

(** The value of a string of decimal digits read after [acc], and the
    strings made of decimal digits only. *)
Fixpoint decimal_value (s : string) (acc : Z) : Z :=
  match s with
  | EmptyString => acc
  | String c s' => decimal_value s' (10 * acc + default 0 (digit_of c))
  end.

Fixpoint digits_only (s : string) : Prop :=
  match s with
  | EmptyString => True
  | String c s' => is_Some (digit_of c) ∧ digits_only s'
  end.

Fixpoint no_space (s : string) : Prop :=
  match s with
  | EmptyString => True
  | String c s' => isspace c = false ∧ no_space s'
  end.

(** * Configuration (utils/config.py) *)

Module Config.

(** The values a settings document holds.  A dictionary keeps its keys in
    insertion order, as Python's does; its keys are strings. *)
#[warnings="-register-all"]
Inductive value : Set :=
  | VNone
  | VBool (b : bool)
  | VInt (n : Z)
  | VStr (s : string)
  | VList (l : list value)
  | VDict (d : list (string * value)).

Definition type_name (v : value) : string :=
  match v with
  | VNone => "NoneType"
  | VBool _ => "bool"
  | VInt _ => "int"
  | VStr _ => "str"
  | VList _ => "list"
  | VDict _ => "dict"
  end.

(** [bool(v)] *)
Definition truthy (v : value) : bool :=
  match v with
  | VNone => false
  | VBool b => b
  | VInt n => negb (n =? 0)
  | VStr s => str_truthy s
  | VList l => negb (bool_decide (length l = 0%nat))
  | VDict d => negb (bool_decide (length d = 0%nat))
  end.

(** Lookup and assignment in a dictionary: an existing key keeps its place,
    a new key goes last. *)
Fixpoint assoc (key : string) (d : list (string * value)) : option value :=
  match d with
  | [] => None
  | (k, v) :: d' => if bool_decide (k = key) then Some v else assoc key d'
  end.

Fixpoint assoc_set (key : string) (v : value) (d : list (string * value))
    : list (string * value) :=
  match d with
  | [] => [(key, v)]
  | (k, x) :: d' =>
      if bool_decide (k = key) then (k, v) :: d' else (k, x) :: assoc_set key v d'
  end.

(** [key in v] for a string [key] *)
Definition contains (v : value) (key : string) : result bool :=
  match v with
  | VDict d => mret (bool_decide (is_Some (assoc key d)))
  | VList l => mret (existsb (λ x, match x with VStr s => bool_decide (s = key) | _ => false end) l)
  | VStr s => mret (str_contains s key)
  | _ => raise TypeError ("argument of type '" +:+ type_name v +:+ "' is not iterable")
  end.

(** [v[key]] for a string [key] *)
Definition getitem (v : value) (key : string) : result value :=
  match v with
  | VDict d =>
      match assoc key d with
      | Some x => mret x
      | None => raise KeyError ("'" +:+ key +:+ "'")
      end
  | VList _ => raise TypeError "list indices must be integers or slices, not str"
  | VStr _ => raise TypeError "string indices must be integers, not 'str'"
  | _ => raise TypeError ("'" +:+ type_name v +:+ "' object is not subscriptable")
  end.

(** [v[key] = x] for a string [key] *)
Definition setitem (v : value) (key : string) (x : value) : result value :=
  match v with
  | VDict d => mret (VDict (assoc_set key x d))
  | VList _ => raise TypeError "list indices must be integers or slices, not str"
  | _ => raise TypeError ("'" +:+ type_name v +:+ "' object does not support item assignment")
  end.

(** [v.get(key, default)] *)
Definition get (v : value) (key : string) (default : value) : result value :=
  match v with
  | VDict d => mret (from_option id default (assoc key d))
  | _ => raise AttributeError ("'" +:+ type_name v +:+ "' object has no attribute 'get'")
  end.

(** The keyword arguments that [v] unpacks to in a call [cls( **v)]: every
    key must be a field of the dataclass. *)
Definition keywords (cls : string) (fields : list string) (v : value)
    : result (list (string * value)) :=
  match v with
  | VDict d =>
      match list_find (λ kv, kv.1 ∉ fields) d with
      | Some (_, (k, _)) =>
          raise TypeError
            (cls +:+ ".__init__() got an unexpected keyword argument '" +:+ k +:+ "'")
      | None => mret d
      end
  | _ =>
      raise TypeError
        (cls +:+ "() argument after ** must be a mapping, not " +:+ type_name v)
  end.

(** The value of a field: the keyword argument, or the default. *)
Definition field (kwargs : list (string * value)) (name : string) (default : value) : value :=
  from_option id default (assoc name kwargs).

Record OCRConfig : Set := {
  tesseract_path : value;
  default_language : value;
  supported_languages : value;
  confidence_threshold : value
}.

Record ProcessingConfig : Set := {
  max_file_size_mb : value;
  temp_dir : value;
  output_dir : value;
  enable_caching : value;
  max_workers : value
}.

Record UIConfig : Set := {
  page_title : value;
  max_upload_size_mb : value;
  show_preview : value;
  theme : value
}.

Record LoggingConfig : Set := {
  level : value;
  format : value;
  file_path : value;
  console_output : value
}.

Record AppConfig : Set := {
  ocr : OCRConfig;
  processing : ProcessingConfig;
  ui : UIConfig;
  logging : LoggingConfig
}.

(** [OCRConfig( **v)], with its [__post_init__]. *)
Definition OCRConfig_init (v : value) : result OCRConfig :=
  kw ← keywords "OCRConfig"
         ["tesseract_path"; "default_language"; "supported_languages"; "confidence_threshold"] v;
  let languages := field kw "supported_languages" VNone in
  mret {| tesseract_path := field kw "tesseract_path" (VStr "");
          default_language := field kw "default_language" (VStr "eng");
          supported_languages :=
            match languages with
            | VNone => VList [VStr "eng"; VStr "fra"]
            | _ => languages
            end;
          confidence_threshold := field kw "confidence_threshold" (VInt 50) |}.

Definition ProcessingConfig_init (v : value) : result ProcessingConfig :=
  kw ← keywords "ProcessingConfig"
         ["max_file_size_mb"; "temp_dir"; "output_dir"; "enable_caching"; "max_workers"] v;
  mret {| max_file_size_mb := field kw "max_file_size_mb" (VInt 100);
          temp_dir := field kw "temp_dir" (VStr "/tmp");
          output_dir := field kw "output_dir" (VStr "./output");
          enable_caching := field kw "enable_caching" (VBool true);
          max_workers := field kw "max_workers" (VInt 4) |}.

Definition UIConfig_init (v : value) : result UIConfig :=
  kw ← keywords "UIConfig" ["page_title"; "max_upload_size_mb"; "show_preview"; "theme"] v;
  mret {| page_title := field kw "page_title" (VStr "PDF Converter Pro");
          max_upload_size_mb := field kw "max_upload_size_mb" (VInt 100);
          show_preview := field kw "show_preview" (VBool true);
          theme := field kw "theme" (VStr "light") |}.

Definition LoggingConfig_init (v : value) : result LoggingConfig :=
  kw ← keywords "LoggingConfig" ["level"; "format"; "file_path"; "console_output"] v;
  mret {| level := field kw "level" (VStr "INFO");
          format := field kw "format" (VStr "standard");
          file_path := field kw "file_path" VNone;
          console_output := field kw "console_output" (VBool true) |}.

(** [AppConfig.from_dict] *)
Definition from_dict (config_dict : value) : result AppConfig :=
  ocr_kw ← get config_dict "ocr" (VDict []);
  ocr_ ← OCRConfig_init ocr_kw;
  processing_kw ← get config_dict "processing" (VDict []);
  processing_ ← ProcessingConfig_init processing_kw;
  ui_kw ← get config_dict "ui" (VDict []);
  ui_ ← UIConfig_init ui_kw;
  logging_kw ← get config_dict "logging" (VDict []);
  logging_ ← LoggingConfig_init logging_kw;
  mret {| ocr := ocr_; processing := processing_; ui := ui_; logging := logging_ |}.

(** [AppConfig.to_dict]: [dataclasses.asdict], fields in declaration order. *)
Definition to_dict (config : AppConfig) : value :=
  VDict
    [("ocr", VDict [("tesseract_path", tesseract_path (ocr config));
                    ("default_language", default_language (ocr config));
                    ("supported_languages", supported_languages (ocr config));
                    ("confidence_threshold", confidence_threshold (ocr config))]);
     ("processing", VDict [("max_file_size_mb", max_file_size_mb (processing config));
                           ("temp_dir", temp_dir (processing config));
                           ("output_dir", output_dir (processing config));
                           ("enable_caching", enable_caching (processing config));
                           ("max_workers", max_workers (processing config))]);
     ("ui", VDict [("page_title", page_title (ui config));
                   ("max_upload_size_mb", max_upload_size_mb (ui config));
                   ("show_preview", show_preview (ui config));
                   ("theme", theme (ui config))]);
     ("logging", VDict [("level", level (logging config));
                        ("format", format (logging config));
                        ("file_path", file_path (logging config));
                        ("console_output", console_output (logging config))])].

(** [ConfigManager._get_default_config] *)
Definition _get_default_config : value :=
  VDict
    [("ocr", VDict [("tesseract_path", VStr "");
                    ("default_language", VStr "eng");
                    ("supported_languages", VList [VStr "eng"; VStr "fra"]);
                    ("confidence_threshold", VInt 50)]);
     ("processing", VDict [("max_file_size_mb", VInt 100);
                           ("temp_dir", VStr "/tmp");
                           ("output_dir", VStr "./output");
                           ("enable_caching", VBool true);
                           ("max_workers", VInt 4)]);
     ("ui", VDict [("page_title", VStr "PDF Converter Pro");
                   ("max_upload_size_mb", VInt 100);
                   ("show_preview", VBool true);
                   ("theme", VStr "light")]);
     ("logging", VDict [("level", VStr "INFO");
                        ("format", VStr "standard");
                        ("file_path", VNone);
                        ("console_output", VBool true)])].

(** The environment: [os.getenv]. *)
Abbreviation environment := (string → option string).

Definition env_mappings : list (string * (string * string)) :=
  [("TESSERACT_PATH", ("ocr", "tesseract_path"));
   ("DEFAULT_LANGUAGE", ("ocr", "default_language"));
   ("MAX_FILE_SIZE_MB", ("processing", "max_file_size_mb"));
   ("TEMP_DIR", ("processing", "temp_dir"));
   ("OUTPUT_DIR", ("processing", "output_dir"));
   ("LOG_LEVEL", ("logging", "level"));
   ("LOG_FILE_PATH", ("logging", "file_path"))].

(** The "type conversion" of an environment value, by the key it sets. *)
Definition convert (key text : string) : result value :=
  if bool_decide (key ∈ ["max_file_size_mb"; "max_workers"; "confidence_threshold"])
  then n ← int_ (ConfStr text); mret (VInt n)
  else if bool_decide (key ∈ ["enable_caching"; "show_preview"; "console_output"])
       then mret (VBool (bool_decide (lower text ∈ ["true"; "1"; "yes"])))
       else mret (VStr text).

(** One turn of the loop of [_override_with_env].  The nested dictionary is
    updated in place; here the updated dictionary is put back under its
    section, which keeps its place. *)
Definition override_step (getenv : environment) (config_dict : value)
    (mapping : string * (string * string)) : result value :=
  let '(env_var, (section, key)) := mapping in
  match getenv env_var with
  | None => mret config_dict
  | Some text =>
      present ← contains config_dict section;
      config_dict ← (if negb present then setitem config_dict section (VDict [])
                     else mret config_dict);
      converted ← convert key text;
      inner ← getitem config_dict section;
      inner' ← setitem inner key converted;
      setitem config_dict section inner'
  end.

Fixpoint override_loop (getenv : environment) (mappings : list (string * (string * string)))
    (config_dict : value) : result value :=
  match mappings with
  | [] => mret config_dict
  | mapping :: mappings' =>
      config_dict' ← override_step getenv config_dict mapping;
      override_loop getenv mappings' config_dict'
  end.

Definition _override_with_env (getenv : environment) (config_dict : value) : result value :=
  override_loop getenv env_mappings config_dict.

(** [s.endswith(suffix)] *)
Definition endswith (s suffix_ : string) : bool :=
  String.prefix (String.rev suffix_) (String.rev s).

(** The file system and the parsers, as [_load_from_file] uses them. *)
Record files : Type := {
  (** [os.path.exists(path)] *)
  exists_ : string → bool;
  (** [open(path, 'r', encoding='utf-8')] *)
  open_text : string → result unit;
  (** [yaml.safe_load(f)] and [json.load(f)] on the file at [path] *)
  yaml_safe_load : string → result value;
  json_load : string → result value
}.

Definition _load_from_file (fs : files) (config_path : string) : result value :=
  if negb (exists_ fs config_path) then mret _get_default_config
  else
    try_except
      (_ ← open_text fs config_path;
       if endswith config_path ".yaml" || endswith config_path ".yml"
       then document ← yaml_safe_load fs config_path;
            mret (if truthy document then document else VDict [])
       else if endswith config_path ".json"
            then json_load fs config_path
            else raise ConfigurationError
                   ("Unsupported config file format: " +:+ config_path))
      (fun e => raise ConfigurationError ("Failed to read config file: " +:+ str e)).

Definition load_config (fs : files) (getenv : environment) (config_path : string)
    : result AppConfig :=
  try_except
    (config_dict ← _load_from_file fs config_path;
     config_dict ← _override_with_env getenv config_dict;
     from_dict config_dict)
    (fun e => raise ConfigurationError ("Failed to load configuration: " +:+ str e)).



(** The configuration built from the defaults of the four dataclasses. *)
Definition defaults : AppConfig :=
  {| ocr := {| tesseract_path := VStr ""; default_language := VStr "eng";
               supported_languages := VList [VStr "eng"; VStr "fra"];
               confidence_threshold := VInt 50 |};
     processing := {| max_file_size_mb := VInt 100; temp_dir := VStr "/tmp";
                      output_dir := VStr "./output"; enable_caching := VBool true;
                      max_workers := VInt 4 |};
     ui := {| page_title := VStr "PDF Converter Pro"; max_upload_size_mb := VInt 100;
              show_preview := VBool true; theme := VStr "light" |};
     logging := {| level := VStr "INFO"; format := VStr "standard"; file_path := VNone;
                   console_output := VBool true |} |}.

End Config.


(** An environment that sets the size limit and the log level. *)
Definition sample_environment : Config.environment := λ env_var,
  if bool_decide (env_var = "MAX_FILE_SIZE_MB") then Some "25"
  else if bool_decide (env_var = "LOG_LEVEL") then Some "DEBUG"
  else None.

(** A file system without any settings file. *)
Definition no_files : Config.files := {|
  Config.exists_ := λ _, false;
  Config.open_text := λ _, raise LibraryError "No such file or directory";
  Config.yaml_safe_load := λ _, raise LibraryError "No such file or directory";
  Config.json_load := λ _, raise LibraryError "No such file or directory"
|}.

(** * Document metadata (pdf_processor.py, PDFProcessorImpl.extract_metadata) *)

(** What [extract_metadata] reads besides the page count: the size and the
    name of the file, and the document information of the reader ([None]
    when the document has none).  The information entries are strings. *)
Record metadata_source : Type := {
  (** [file_path.stat().st_size] *)
  stat_size : Path → result Z;
  (** [file_path.name] *)
  file_name : Path → string;
  (** [reader.metadata] *)
  reader_metadata : Path → result (option (gmap string string))
}.

(** [pdf_metadata.get(key, '')] *)
Definition info_get (pdf_metadata : gmap string string) (key : string) : string :=
  default "" (pdf_metadata !! key).

Definition extract_metadata (env : collaborators) (src : metadata_source) (file_path : Path)
    : result (gmap string pyval) :=
  try_except
    (_ ← validate_file env file_path;
     page_count ← reader_pages env file_path;
     file_size ← stat_size src file_path;
     let metadata : gmap string pyval :=
       list_to_map [("page_count", PyInt page_count); ("file_size", PyInt file_size);
                    ("file_name", PyStr (file_name src file_path))] in
     document_info ← reader_metadata src file_path;
     match document_info with
     | Some pdf_metadata =>
         if bool_decide (pdf_metadata ≠ ∅)
         then mret (list_to_map
                      [("title", PyStr (info_get pdf_metadata "/Title"));
                       ("author", PyStr (info_get pdf_metadata "/Author"));
                       ("subject", PyStr (info_get pdf_metadata "/Subject"));
                       ("creator", PyStr (info_get pdf_metadata "/Creator"));
                       ("producer", PyStr (info_get pdf_metadata "/Producer"));
                       ("creation_date", PyStr (info_get pdf_metadata "/CreationDate"));
                       ("modification_date", PyStr (info_get pdf_metadata "/ModDate"))]
                    ∪ metadata)
         else mret metadata
     | None => mret metadata
     end)
    (fun e =>
       if isinstance e [PDFReadError] then inl e
       else raise PDFReadError ("Cannot extract metadata: " +:+ str e)).

(** The descriptive keys that the document information adds. *)
Definition info_keys : list string :=
  ["title"; "author"; "subject"; "creator"; "producer"; "creation_date"; "modification_date"].

(** A test double of the metadata source, from the mocks of
    tests/test_pdf_processor.py, test_extract_metadata_success. *)
Definition mock_metadata : metadata_source := {|
  stat_size := λ _, inr 594;
  file_name := λ _, "sample.pdf";
  reader_metadata := λ _,
    inr (Some (list_to_map [("/Title", "Test PDF"); ("/Author", "Test Author");
                            ("/Creator", "Test Creator")]))
|}.

(** * Properties *)

(** ** The repository's unit tests, replayed on the model *)

(** tests/test_pdf_processor.py, test_filter_text_by_confidence *)
Example test_filter_text_by_confidence :
  _filter_text_by_confidence 60
    (TextData ["Good"; "Bad"; "Excellent"; ""]
              [ConfStr "70"; ConfStr "30"; ConfStr "90"; ConfStr "0"])
  = inr "Good Excellent".
Proof. reflexivity. Qed.

(** tests/test_file_validator.py: a non-PDF stream is refused, a stream that
    starts with the signature is accepted. *)
Example test_validate_file_type_invalid :
  fst (run validate_file_type (Stream [Byte.x54; Byte.x68; Byte.x69; Byte.x73] 0 false))
  = raise ValidationError "File is not a valid PDF".
Proof. reflexivity. Qed.

Example test_validate_file_type_valid_pdf :
  fst (run validate_file_type
         (Stream (pdf_magic ++ [Byte.x31; Byte.x2e; Byte.x34; Byte.x0a; Byte.x31]) 0 false))
  = inr true.
Proof. reflexivity. Qed.

Example test_validate_file_size_too_large :
  fst (run (validate_file_size 1)
         (Stream (replicate (Z.to_nat (2 * 1024 * 1024)) Byte.x78) 0 false))
  = raise ValidationError
      "File size (2.00 MB) exceeds maximum allowed size (1 MB)".
Proof. vm_compute. reflexivity. Qed.

(** ** Evaluation helpers for the error monad *)

Lemma bind_inr {A B} (f : A → result B) (x : A) : (inr x ≫= f) = f x.
Proof. reflexivity. Qed.

Lemma bind_inl {A B} (f : A → result B) (e : exn) : (inl e ≫= f) = inl e.
Proof. reflexivity. Qed.

Lemma bind_returns {A B} (f : A → result B) (m : result A) (y : B) :
  m ≫= f = inr y → ∃ x, m = inr x ∧ f x = inr y.
Proof. destruct m as [e|x]; [discriminate | eauto]. Qed.

Lemma getitem_lookup {A} (l : list A) (i : nat) (x : A) :
  l !! i = Some x → getitem l i = inr x.
Proof. unfold getitem. by intros ->. Qed.

(** ** Confidence filter *)

Lemma keep_condition (t c : Z) (w : string) :
  (t <=? c) && str_truthy (strip w) = bool_decide (t ≤ c ∧ strip w ≠ "").
Proof.
  unfold str_truthy.
  destruct (Z.leb_spec t c), (decide (strip w = "")) as [Hs|Hs];
    rewrite ?(bool_decide_eq_true_2 _ Hs), ?(bool_decide_eq_false_2 _ Hs); simpl;
    symmetry; (apply bool_decide_eq_true_2 || apply bool_decide_eq_false_2);
    intuition lia.
Qed.

Lemma filter_loop_words (t : Z) (words : list (string * Z)) :
  ∀ (pre : list conf_value) (acc : list string),
    filter_loop t (pre ++ (ConfInt <$> words.*2)) (length pre) (words.*1) acc
    = inr (acc ++ retained t words).
Proof.
  induction words as [|[w c] words IH]; intros pre acc.
  - simpl. by rewrite app_nil_r.
  - cbn [fmap list_fmap fst snd filter_loop].
    rewrite (getitem_lookup _ _ (ConfInt c)) by apply list_lookup_middle, eq_refl.
    rewrite bind_inr. cbn [int_]. unfold mret at 1, result_ret. rewrite bind_inr.
    rewrite keep_condition.
    specialize (IH (pre ++ [ConfInt c])).
    rewrite <- app_assoc, length_app, Nat.add_1_r in IH. simpl in IH.
    unfold retained. rewrite filter_cons. simpl.
    case_bool_decide as Hk; rewrite decide_bool_decide.
    + rewrite IH. rewrite (bool_decide_eq_true_2 _ Hk). simpl.
      by rewrite <- app_assoc.
    + rewrite IH. by rewrite (bool_decide_eq_false_2 _ Hk).
Qed.

Lemma filtered_words_ocr_words (t : Z) (words : list (string * Z)) :
  filtered_words t (ocr_words words) = inr (retained t words).
Proof. apply (filter_loop_words t words [] []). Qed.

(** C2.  For every OCR word output given as (word, confidence) pairs and
    every threshold, the page text is the words whose confidence is at
    least the threshold and whose trimmed text is non-empty, in their
    original order, joined by single spaces; for Hello/85, World/90, x/10
    and threshold 50 it is "Hello World". *)
Theorem filter_text_by_confidence_spec (t : Z) (words : list (string * Z)) :
  _filter_text_by_confidence t (ocr_words words) = inr (join " " (retained t words))
  ∧ _filter_text_by_confidence 50 (ocr_words [("Hello", 85); ("World", 90); ("x", 10)])
    = inr "Hello World".
Proof.
  split; [|reflexivity].
  unfold _filter_text_by_confidence. by rewrite filtered_words_ocr_words.
Qed.

(** The loop raises or returns independently of the threshold, and a
    larger threshold keeps a sublist of what a smaller one keeps. *)
Lemma filter_loop_threshold_mono (t1 t2 : Z) (conf : list conf_value) (text : list string) :
  t1 ≤ t2 →
  ∀ (i : nat) (acc1 acc2 : list string),
    acc2 `sublist_of` acc1 →
    match filter_loop t2 conf i text acc2 with
    | inr l2 => ∃ l1, filter_loop t1 conf i text acc1 = inr l1 ∧ l2 `sublist_of` l1
    | inl e => filter_loop t1 conf i text acc1 = inl e
    end.
Proof.
  intros Ht. induction text as [|word text IH]; intros i acc1 acc2 Hacc.
  - simpl. eauto.
  - cbn [filter_loop].
    destruct (getitem conf i) as [e|c]; [reflexivity|]. rewrite !bind_inr.
    destruct (int_ c) as [e|confidence]; [reflexivity|]. rewrite !bind_inr.
    destruct (str_truthy (strip word)); rewrite ?andb_false_r, ?andb_true_r.
    + destruct (Z.leb_spec t2 confidence) as [H2|H2].
      * rewrite (proj2 (Z.leb_le t1 confidence)) by lia.
        apply IH. by apply sublist_app.
      * destruct (t1 <=? confidence); apply IH; [by apply sublist_inserts_r | done].
    + by apply IH.
Qed.

(** C8.  Confidence filtering is monotone in the threshold: whenever
    [t1 <= t2], every word retained at [t2] is retained at [t1] (the list
    kept at [t2] is a sublist of the one kept at [t1]); on a sequence of
    (word, confidence) pairs the filter always returns. *)
Theorem filtered_words_monotone (data : text_data) (t1 t2 : Z) :
  t1 ≤ t2 →
  (∀ l2, filtered_words t2 data = inr l2 →
         ∃ l1, filtered_words t1 data = inr l1 ∧ l2 `sublist_of` l1 ∧ l2 ⊆ l1)
  ∧ (∀ words, data = ocr_words words →
         returns (filtered_words t1 data) ∧ returns (filtered_words t2 data)).
Proof.
  intros Ht. split.
  - intros l2 H2.
    pose proof (filter_loop_threshold_mono t1 t2 (td_conf data) (td_text data) Ht
                  0%nat [] [] (sublist_nil)) as H.
    unfold filtered_words in *. rewrite H2 in H. destruct H as (l1 & H1 & Hsub).
    exists l1. split_and!; [done | done | by apply sublist_subseteq].
  - intros words ->. rewrite !filtered_words_ocr_words. unfold returns. eauto.
Qed.

Lemma filtered_words_monotone_witness :
  ∃ l1, filtered_words 50 (ocr_words [("Hello", 85); ("World", 90); ("x", 10)]) = inr l1
        ∧ ["World"] `sublist_of` l1 ∧ ["World"] ⊆ l1.
Proof.
  apply (filtered_words_monotone
           (ocr_words [("Hello", 85); ("World", 90); ("x", 10)]) 50 90); [lia|].
  reflexivity.
Defined.

(** ** Page-range resolution *)

Lemma invalid_pages_nil (total_pages : Z) (pages : list Z) :
  Forall (λ p, 1 ≤ p ≤ total_pages) pages →
  invalid_pages total_pages pages = [].
Proof.
  unfold invalid_pages. induction 1 as [|p pages Hp _ IH]; [done|].
  rewrite filter_cons_False by lia. exact IH.
Qed.

Lemma pages_to_process_valid (total_pages : Z) (pages : list Z) :
  Forall (λ p, 1 ≤ p ≤ total_pages) pages →
  pages_to_process total_pages (Some pages) = inr (sorted pages).
Proof.
  intros Hv. unfold pages_to_process. rewrite invalid_pages_nil by done.
  by rewrite bool_decide_eq_false_2 by (intros H; by apply H).
Qed.

(** C7.  A selection whose entries all lie in [1, total] is resolved to the
    same entries in ascending order: the resolved list is sorted and is a
    permutation of the selection, so nothing is added, dropped or
    deduplicated. *)
Theorem pages_to_process_sorted_permutation (total_pages : Z) (pages : list Z) :
  Forall (λ p, 1 ≤ p ≤ total_pages) pages →
  ∃ resolved, pages_to_process total_pages (Some pages) = inr resolved
              ∧ Sorted Z.le resolved
              ∧ resolved ≡ₚ pages.
Proof.
  intros Hv. exists (sorted pages). split_and!.
  - by apply pages_to_process_valid.
  - apply Sorted_merge_sort. apply _.
  - apply merge_sort_Permutation.
Qed.

Lemma pages_to_process_sorted_permutation_witness :
  ∃ resolved, pages_to_process 5 (Some [3; 1; 3; 2]) = inr resolved
              ∧ Sorted Z.le resolved
              ∧ resolved ≡ₚ [3; 1; 3; 2].
Proof.
  apply (pages_to_process_sorted_permutation 5 [3; 1; 3; 2]).
  repeat constructor; lia.
Defined.

(** ** Language codes *)

Lemma language_mapping_keys (language : string) :
  language ∉ known_codes → language_mapping !! language = None.
Proof.
  intros Hn. unfold language_mapping. apply not_elem_of_list_to_map_1.
  exact Hn.
Qed.

(** C4, as the code has it.  A language code that is not one of the eleven
    keys of the lookup table is converted to "en" (the conversion is a total
    function, it cannot raise); "deu" is a key of the table and is converted
    to "de". *)
Theorem convert_language_code_fallback (language : string) :
  language ∉ known_codes →
  _convert_language_code language = "en" ∧ _convert_language_code "deu" = "de".
Proof.
  intros Hn. split; [|reflexivity].
  unfold _convert_language_code. by rewrite language_mapping_keys.
Qed.

Lemma convert_language_code_fallback_witness :
  _convert_language_code "nld" = "en" ∧ _convert_language_code "deu" = "de".
Proof.
  apply (convert_language_code_fallback "nld").
  unfold known_codes. intros H. repeat (apply elem_of_cons in H as [H|H]; [discriminate H|]).
  by apply elem_of_nil in H.
Defined.

(** C4 as stated fails: requested "deu" is not converted to "en". *)
Lemma convert_language_code_deu : _convert_language_code "deu" ≠ "en".
Proof. discriminate. Qed.

(** ** Stream probes *)

Lemma run_bind {A B} (m : io A) (f : A → io B) (file : BytesIO) :
  run (m ≫= f) file =
  match run m file with
  | (inl e, file') => (inl e, file')
  | (inr x, file') => run (f x) file'
  end.
Proof. reflexivity. Qed.

Lemma stream_eta (file : BytesIO) :
  Stream (buffer file) (position file) (closed file) = file.
Proof. by destruct file. Qed.

(** The handlers of both probes leave the stream alone. *)
Lemma handler_frame {A} (prefix : string) (e : exn) (file : BytesIO) :
  (run (A:=A) (if isinstance e [ValidationError] then io_raise e
        else io_raise (Raise ValidationError (prefix +:+ str e))) file).2 = file.
Proof. by destruct (isinstance e [ValidationError]). Qed.

Ltac unfold_io :=
  unfold io_try_except, tell, seek, seek_end, read, check_open, io_raise;
  unfold mbind, io_bind, mret, io_ret.

Lemma validate_file_type_frame (file : BytesIO) :
  (run validate_file_type file).2 = file.
Proof.
  destruct file as [buf pos [|]]; [reflexivity|].
  unfold validate_file_type. unfold_io.
  cbn -[take drop startswith pdf_magic Z.to_nat Z.of_nat]. rewrite Nat2Z.id.
  replace (Z.of_nat pos <? 0) with false by (symmetry; apply Z.ltb_ge; lia).
  cbn -[take drop startswith pdf_magic Z.to_nat Z.of_nat].
  by destruct (startswith _ _).
Qed.

Lemma validate_file_size_frame (max_size_mb : Z) (file : BytesIO) :
  (run (validate_file_size max_size_mb) file).2 = file.
Proof.
  destruct file as [buf pos [|]]; [reflexivity|].
  unfold validate_file_size. unfold_io.
  cbn -[Z.of_nat Z.to_nat Z.mul Z.ltb format_mb repr_int Z.max Z.add].
  rewrite Nat2Z.id.
  replace (Z.of_nat pos <? 0) with false by (symmetry; apply Z.ltb_ge; lia).
  cbn -[Z.of_nat Z.to_nat Z.mul Z.ltb format_mb repr_int Z.max Z.add].
  by destruct (_ <? _).
Qed.

(** C5.  On every stream (any buffer, any read position, open or closed)
    and for every limit, the type probe and the size probe end with the
    read position they started from, whether they accept or raise; the
    buffer is untouched as well. *)
Theorem probes_restore_position (file : BytesIO) (max_size_mb : Z) :
  position (run validate_file_type file).2 = position file
  ∧ position (run (validate_file_size max_size_mb) file).2 = position file
  ∧ (run validate_file_type file).2 = file
  ∧ (run (validate_file_size max_size_mb) file).2 = file.
Proof.
  rewrite validate_file_type_frame, validate_file_size_frame. done.
Qed.

(** ** Table metadata *)

Lemma metadata_loop_imap (tables : list pyobject) :
  ∀ (i : nat) (metadata : list (gmap string pyval)),
    metadata_loop i tables metadata
    = metadata ++ imap (λ k table, table_entry (i + k) table) tables.
Proof.
  induction tables as [|table tables IH]; intros i metadata.
  - simpl. by rewrite app_nil_r.
  - cbn [metadata_loop imap].
    rewrite (imap_ext _ (λ k t, table_entry (S i + k) t) tables)
      by (intros k t _; simpl; f_equal; lia).
    unfold table_entry at 1. rewrite Nat.add_0_r.
    destruct (table_info i table) as [e|info];
      by rewrite IH, <- app_assoc.
Qed.

Lemma generate_tables_metadata_lookup (tables : list pyobject) (pages : list Z) (i : nat) :
  _generate_tables_metadata tables pages !! i = table_entry i <$> tables !! i.
Proof.
  unfold _generate_tables_metadata. rewrite metadata_loop_imap. simpl.
  by rewrite list_lookup_imap.
Qed.

Lemma table_info_populated (i : nat) (table : pyobject) (info : gmap string pyval) :
  table_info i table = inr info → fully_populated i info.
Proof.
  unfold table_info. intros H.
  repeat (apply bind_returns in H as (? & _ & H)).
  injection H as <-. unfold fully_populated.
  split_and!; try reflexivity; try (eexists; reflexivity).
Qed.

(** C9.  For N detected tables the metadata has exactly N records, in table
    order.  A table whose metadata extraction succeeds gets its populated
    record; a table whose extraction raises gets a record with the table id
    and an error field holding the exception text, and the records of the
    other tables are unaffected. *)
Theorem generate_tables_metadata_isolates (tables : list pyobject) (pages : list Z) :
  length (_generate_tables_metadata tables pages) = length tables
  ∧ (∀ i table info,
        tables !! i = Some table → table_info i table = inr info →
        _generate_tables_metadata tables pages !! i = Some info
        ∧ fully_populated i info)
  ∧ (∀ i table e,
        tables !! i = Some table → table_info i table = inl e →
        ∃ entry, _generate_tables_metadata tables pages !! i = Some entry
                 ∧ entry !! "table_id" = Some (PyInt (Z.of_nat i + 1))
                 ∧ entry !! "error" = Some (PyStr (str e))).
Proof.
  split_and!.
  - unfold _generate_tables_metadata. rewrite metadata_loop_imap. simpl.
    by rewrite length_imap.
  - intros i table info Hi Hinfo. split; [|by eapply table_info_populated].
    rewrite generate_tables_metadata_lookup, Hi. simpl.
    unfold table_entry. by rewrite Hinfo.
  - intros i table e Hi He. exists (error_info i e). split_and!; [|reflexivity..].
    rewrite generate_tables_metadata_lookup, Hi. simpl.
    unfold table_entry. by rewrite He.
Qed.

Lemma generate_tables_metadata_isolates_witness :
  length (_generate_tables_metadata [table_1; table_2] [1]) = 2%nat
  ∧ (∃ info, _generate_tables_metadata [table_1; table_2] [1] !! 0%nat = Some info
             ∧ fully_populated 0 info)
  ∧ (∃ entry, _generate_tables_metadata [table_1; table_2] [1] !! 1%nat = Some entry
              ∧ entry !! "table_id" = Some (PyInt 2)
              ∧ entry !! "error" = Some (PyStr "corrupt table")).
Proof.
  destruct (generate_tables_metadata_isolates [table_1; table_2] [1]) as (Hlen & Hok & Herr).
  split_and!.
  - exact Hlen.
  - eexists. apply (Hok 0%nat table_1); reflexivity.
  - apply (Herr 1%nat table_2 (Raise LibraryError "corrupt table")); reflexivity.
Defined.

(** ** The two pipelines *)

(** tests/test_file_validator.py, test_validate_file_size_preserves_position *)
Example test_validate_file_size_preserves_position :
  run (validate_file_size 1) (Stream (replicate 1024 Byte.x78) 512 false)
  = (inr true, Stream (replicate 1024 Byte.x78) 512 false).
Proof. vm_compute. reflexivity. Qed.

(** tests/test_pdf_processor.py, test_extract_text_success *)
Example test_extract_text_success :
  extract_text (mock_env [hello_page]) 50 sample_pdf None "eng" = inr ["Hello World"].
Proof. reflexivity. Qed.

(** tests/test_pdf_processor.py, test_extract_text_invalid_pages *)
Example test_extract_text_invalid_pages :
  extract_text (mock_env [hello_page; hello_page]) 50 sample_pdf (Some [0; 5]) "eng"
  = raise ValidationError "Invalid page numbers: [0, 5]".
Proof. reflexivity. Qed.

Lemma extract_text_readable env t file_path pages language total :
  readable env file_path total →
  extract_text env t file_path pages language =
  try_except
    (pages_to_process ← pages_to_process total pages;
     images ← _convert_pdf_to_images env file_path pages_to_process;
     ocr_loop env t pages_to_process language 0 images None [])
    (fun e =>
       if isinstance e [PDFReadError; ValidationError] then inl e
       else raise OCRError ("OCR processing failed: " +:+ str e)).
Proof. intros [Hv Hc]. unfold extract_text. by rewrite Hv, bind_inr, Hc, bind_inr. Qed.

Lemma extract_tables_invalid env t file_path pages language total e :
  readable env file_path total →
  pages_to_process total pages = inl e →
  isinstance e [PDFReadError; ValidationError] = true →
  extract_tables env t file_path pages language = inl e.
Proof.
  intros [Hv Hc] He Hi. unfold extract_tables.
  rewrite Hv, bind_inr, Hc, bind_inr, He, bind_inl. unfold try_except. by rewrite Hi.
Qed.

Lemma string_app_cons (x : ascii) (a b : string) : String x a +:+ b = String x (a +:+ b).
Proof. reflexivity. Qed.

Lemma string_app_assoc (a b c : string) : (a +:+ b) +:+ c = a +:+ b +:+ c.
Proof. induction a as [|x a IH]; [done|]. by rewrite !string_app_cons, IH. Qed.

Lemma string_app_nil_r (a : string) : a +:+ "" = a.
Proof. induction a as [|x a IH]; [done|]. by rewrite string_app_cons, IH. Qed.

Lemma mentions_app_l (pre msg sub : string) : mentions msg sub → mentions (pre +:+ msg) sub.
Proof. intros (a & b & ->). exists (pre +:+ a), b. by rewrite string_app_assoc. Qed.

Lemma mentions_app_r (post msg sub : string) : mentions msg sub → mentions (msg +:+ post) sub.
Proof.
  intros (a & b & ->). exists a, (b +:+ post). by rewrite !string_app_assoc.
Qed.

Lemma join_mentions (sep x : string) (l : list string) : x ∈ l → mentions (join sep l) x.
Proof.
  induction l as [|y l IH]; intros Hx; [by apply elem_of_nil in Hx|].
  destruct l as [|z l].
  - apply list_elem_of_singleton in Hx as ->. exists "", "". simpl. by rewrite string_app_nil_r.
  - cbn [join] in *. apply elem_of_cons in Hx as [->|Hx].
    + exists "", (sep +:+ join sep (z :: l)). done.
    + apply mentions_app_l, mentions_app_l, IH, Hx.
Qed.

Lemma repr_int_list_mentions (l : list Z) (p : Z) :
  p ∈ l → mentions (repr_int_list l) (repr_int p).
Proof.
  intros Hp. unfold repr_int_list.
  apply mentions_app_l, mentions_app_r, join_mentions.
  apply list_elem_of_fmap. eauto.
Qed.

(** C3.  When a selection holds a value outside [1, total], page-range
    resolution raises a validation error whose message prints the list of
    all offending values, in selection order: every offending value belongs
    to that list and is mentioned in the message.  [extract_text] and
    [extract_tables] both raise that same error. *)
Theorem invalid_selection_names_all env t file_path language total (pages : list Z) :
  readable env file_path total →
  (∃ p, p ∈ pages ∧ (p < 1 ∨ p > total)) →
  let msg := "Invalid page numbers: " +:+ repr_int_list (invalid_pages total pages) in
  pages_to_process total (Some pages) = raise ValidationError msg
  ∧ extract_text env t file_path (Some pages) language = raise ValidationError msg
  ∧ extract_tables env t file_path (Some pages) language = raise ValidationError msg
  ∧ ∀ p, p ∈ pages → p < 1 ∨ p > total →
         p ∈ invalid_pages total pages ∧ mentions msg (repr_int p).
Proof.
  intros Hr (p0 & Hp0 & Hout0) msg.
  assert (∀ p, p ∈ pages → p < 1 ∨ p > total → p ∈ invalid_pages total pages) as Hin.
  { intros p Hp Hout. unfold invalid_pages. by apply list_elem_of_filter. }
  assert (pages_to_process total (Some pages) = raise ValidationError msg) as Hres.
  { unfold pages_to_process. rewrite bool_decide_eq_true_2; [done|].
    intros Hnil. specialize (Hin p0 Hp0 Hout0). rewrite Hnil in Hin.
    by apply elem_of_nil in Hin. }
  split_and!.
  - exact Hres.
  - rewrite (extract_text_readable _ _ _ _ _ total) by done. by rewrite Hres.
  - by apply (extract_tables_invalid _ _ _ _ _ total).
  - intros p Hp Hout. split; [by apply Hin|].
    apply mentions_app_l, repr_int_list_mentions, Hin; done.
Qed.

Lemma invalid_selection_names_all_witness :
  pages_to_process 3 (Some [5; 0]) = raise ValidationError "Invalid page numbers: [5, 0]"
  ∧ extract_text (mock_env [hello_page; hello_page; hello_page]) 50 sample_pdf (Some [5; 0]) "eng"
    = raise ValidationError "Invalid page numbers: [5, 0]"
  ∧ extract_tables (mock_env [hello_page; hello_page; hello_page]) 50 sample_pdf (Some [5; 0]) "eng"
    = raise ValidationError "Invalid page numbers: [5, 0]"
  ∧ ∀ p, p ∈ [5; 0] → p < 1 ∨ p > 3 →
         p ∈ invalid_pages 3 [5; 0] ∧ mentions "Invalid page numbers: [5, 0]" (repr_int p).
Proof.
  apply (invalid_selection_names_all
           (mock_env [hello_page; hello_page; hello_page]) 50 sample_pdf "eng" 3 [5; 0]).
  - split; reflexivity.
  - exists 5. split; [left | lia].
Defined.

(** ** The page loop *)

Section PageLoop.

Context (env : collaborators) (t : Z) (pages : list Z) (language : string).

(** Once [page_num] is bound the loop cannot raise. *)
Lemma ocr_loop_bound (images : list (image env)) :
  ∀ (i : nat) (n : Z) (texts : list string),
    ocr_loop env t pages language i images (Some n) texts
    = inr (texts ++ imap (λ k, page_text env t pages language (i + k)) images).
Proof.
  induction images as [|image_ images IH]; intros i n texts.
  - simpl. by rewrite app_nil_r.
  - cbn [ocr_loop imap].
    rewrite (imap_ext _ (λ k, page_text env t pages language (S i + k)) images)
      by (intros k x _; simpl; f_equal; lia).
    unfold ocr_page, getitem, page_text at 1. rewrite Nat.add_0_r.
    destruct (pages !! i) as [p|]; simpl.
    + fold (recognize env t language image_). destruct (recognize env t language image_) as [e|text];
        by rewrite IH, <- app_assoc.
    + by rewrite IH, <- app_assoc.
Qed.

(** From the start of the loop: with at least one page to process, the
    first iteration binds [page_num]. *)
Lemma ocr_loop_start (images : list (image env)) :
  pages ≠ [] →
  ocr_loop env t pages language 0 images None []
  = inr (imap (page_text env t pages language) images).
Proof.
  intros Hne. destruct pages as [|p pages'] eqn:Hp; [done|]. rewrite <- Hp.
  destruct images as [|image_ images]; [done|].
  cbn [ocr_loop imap]. unfold ocr_page, getitem, page_text at 1.
  rewrite Hp at 1 2. cbn [lookup list_lookup]. simpl.
  fold (recognize env t language image_).
  destruct (recognize env t language image_) as [e|text]; rewrite ocr_loop_bound; simpl; reflexivity.
Qed.

End PageLoop.

(** Rendering never succeeds on an empty list of pages. *)
Lemma convert_pdf_to_images_nonempty env file_path pages images :
  _convert_pdf_to_images env file_path pages = inr images → pages ≠ [].
Proof.
  intros H ->. unfold _convert_pdf_to_images in H.
  destruct (read_file env file_path); discriminate H.
Qed.

(** After a successful rendering the result is the list of page texts. *)
Lemma extract_text_rendered env t file_path pages language total resolved images :
  readable env file_path total →
  pages_to_process total pages = inr resolved →
  _convert_pdf_to_images env file_path resolved = inr images →
  extract_text env t file_path pages language
  = inr (imap (page_text env t resolved language) images).
Proof.
  intros Hr Hres Himg.
  rewrite (extract_text_readable _ _ _ _ _ total) by done.
  rewrite Hres, bind_inr, Himg, bind_inr.
  rewrite ocr_loop_start by (by eapply convert_pdf_to_images_nonempty). done.
Qed.

(** C6.  Once the selected pages have been rendered, text extraction
    returns one string per rendered image and never raises: an image on
    which the OCR engine raises contributes the empty string, and every
    other image still contributes its filtered text. *)
Theorem ocr_errors_are_isolated env t file_path pages language total resolved images :
  readable env file_path total →
  pages_to_process total pages = inr resolved →
  _convert_pdf_to_images env file_path resolved = inr images →
  ∃ texts,
    extract_text env t file_path pages language = inr texts
    ∧ length texts = length images
    ∧ (∀ i image_ e,
         images !! i = Some image_ →
         image_to_data env image_ language ("--oem 3 --psm 6 -l " +:+ language) = inl e →
         texts !! i = Some "")
    ∧ (∀ i image_ text,
         images !! i = Some image_ → (i < length resolved)%nat →
         recognize env t language image_ = inr text →
         texts !! i = Some text).
Proof.
  intros Hr Hres Himg.
  exists (imap (page_text env t resolved language) images).
  split_and!.
  - by apply (extract_text_rendered _ _ _ _ _ total).
  - by rewrite length_imap.
  - intros i image_ e Hi He. rewrite list_lookup_imap, Hi. simpl.
    unfold page_text, recognize. rewrite He. simpl. by destruct (resolved !! i).
  - intros i image_ text Hi Hlt Hrec. rewrite list_lookup_imap, Hi. simpl.
    unfold page_text. rewrite Hrec.
    destruct (lookup_lt_is_Some_2 resolved i Hlt) as [p ->]. done.
Qed.

Lemma ocr_errors_are_isolated_witness :
  ∃ texts,
    extract_text (mock_env [hello_page; unreadable_page; hello_page]) 50 sample_pdf None "eng"
    = inr texts
    ∧ length texts = 3%nat
    ∧ texts !! 1%nat = Some ""
    ∧ texts !! 2%nat = Some "Hello World".
Proof.
  destruct (ocr_errors_are_isolated
              (mock_env [hello_page; unreadable_page; hello_page]) 50 sample_pdf None "eng"
              3 [1; 2; 3] [hello_page; unreadable_page; hello_page])
    as (texts & Htexts & Hlen & Herr & Hok).
  - split; reflexivity.
  - reflexivity.
  - reflexivity.
  - exists texts. split_and!.
    + exact Htexts.
    + exact Hlen.
    + apply (Herr 1%nat unreadable_page (Raise LibraryError "tesseract failed")); reflexivity.
    + apply (Hok 2%nat hello_page "Hello World"); [reflexivity | simpl; lia | reflexivity].
Defined.

(** ** Rendering a contiguous range *)

Lemma foldl_min_spec (l : list Z) :
  ∀ x, (foldl Z.min x l = x ∨ foldl Z.min x l ∈ l)
       ∧ foldl Z.min x l ≤ x
       ∧ ∀ y, y ∈ l → foldl Z.min x l ≤ y.
Proof.
  induction l as [|a l IH]; intros x; simpl.
  - split_and!; [by left | lia | intros y Hy; by apply elem_of_nil in Hy].
  - destruct (IH (Z.min x a)) as (Hm & Hle & Hall). split_and!.
    + destruct Hm as [Hm|Hm]; [|right; by right].
      rewrite Hm. destruct (Z.min_spec x a) as [[_ ->]|[_ ->]]; [by left | right; by left].
    + lia.
    + intros y [->|Hy]%elem_of_cons; [lia | by apply Hall].
Qed.

Lemma foldl_max_spec (l : list Z) :
  ∀ x, (foldl Z.max x l = x ∨ foldl Z.max x l ∈ l)
       ∧ x ≤ foldl Z.max x l
       ∧ ∀ y, y ∈ l → y ≤ foldl Z.max x l.
Proof.
  induction l as [|a l IH]; intros x; simpl.
  - split_and!; [by left | lia | intros y Hy; by apply elem_of_nil in Hy].
  - destruct (IH (Z.max x a)) as (Hm & Hle & Hall). split_and!.
    + destruct Hm as [Hm|Hm]; [|right; by right].
      rewrite Hm. destruct (Z.max_spec x a) as [[_ ->]|[_ ->]]; [right; by left | by left].
    + lia.
    + intros y [->|Hy]%elem_of_cons; [lia | by apply Hall].
Qed.

Lemma py_min_spec (l : list Z) (lo : Z) :
  lo ∈ l → (∀ p, p ∈ l → lo ≤ p) → py_min l = inr lo.
Proof.
  intros Hin Hle. destruct l as [|x l]; [by apply elem_of_nil in Hin|].
  unfold py_min. destruct (foldl_min_spec l x) as (Hm & Hmx & Hall).
  assert (foldl Z.min x l ∈ x :: l) as Hmem by (destruct Hm as [->|?]; [by left | by right]).
  assert (foldl Z.min x l ≤ lo) as Hlo.
  { apply elem_of_cons in Hin as [->|Hin]; [done | by apply Hall]. }
  specialize (Hle _ Hmem). unfold mret, result_ret. f_equal. lia.
Qed.

Lemma py_max_spec (l : list Z) (hi : Z) :
  hi ∈ l → (∀ p, p ∈ l → p ≤ hi) → py_max l = inr hi.
Proof.
  intros Hin Hle. destruct l as [|x l]; [by apply elem_of_nil in Hin|].
  unfold py_max. destruct (foldl_max_spec l x) as (Hm & Hmx & Hall).
  assert (foldl Z.max x l ∈ x :: l) as Hmem by (destruct Hm as [->|?]; [by left | by right]).
  assert (hi ≤ foldl Z.max x l) as Hhi.
  { apply elem_of_cons in Hin as [->|Hin]; [done | by apply Hall]. }
  specialize (Hle _ Hmem). unfold mret, result_ret. f_equal. lia.
Qed.

(** When the pages to process are exactly the values of [lo..hi], with or
    without repetitions, [_convert_pdf_to_images] returns what the renderer
    returns for [lo..hi], unfiltered. *)
Lemma convert_pdf_to_images_contiguous env file_path pages lo hi images :
  pages ≠ [] →
  (∀ p, p ∈ pages ↔ lo ≤ p ≤ hi) →
  renders_range env file_path lo hi images →
  _convert_pdf_to_images env file_path pages = inr images.
Proof.
  intros Hne Hrange (pdf_bytes & Hread & Hconv & _).
  assert (lo ≤ hi) as Hlohi.
  { destruct pages as [|p pages]; [done|].
    assert (lo ≤ p ≤ hi) by (apply Hrange; by left). lia. }
  assert (py_min pages = inr lo) as Hmin.
  { apply py_min_spec; [apply Hrange; lia | intros p Hp; by apply Hrange]. }
  assert (py_max pages = inr hi) as Hmax.
  { apply py_max_spec; [apply Hrange; lia | intros p Hp; by apply Hrange]. }
  unfold _convert_pdf_to_images. rewrite Hread, bind_inr.
  case_bool_decide as Hlen.
  - destruct pages as [|p [|q pages]]; try discriminate Hlen.
    assert (lo = p) as <-.
    { assert (lo ∈ [p]) as Hin by (apply Hrange; lia).
      by apply list_elem_of_singleton in Hin. }
    assert (hi = lo) as ->.
    { assert (hi ∈ [lo]) as Hin by (apply Hrange; lia).
      by apply list_elem_of_singleton in Hin. }
    simpl. by rewrite Hconv.
  - rewrite Hmin, Hmax, !bind_inr, Hconv, !bind_inr.
    rewrite bool_decide_eq_false_2; [done|].
    intros Hset. apply Hset. apply set_eq. intros p.
    rewrite !elem_of_list_to_set, Hrange. unfold range. rewrite elem_of_seqZ. lia.
Qed.

Lemma extract_text_contiguous env t file_path pages language total resolved lo hi images :
  readable env file_path total →
  pages_to_process total pages = inr resolved →
  resolved ≠ [] →
  (∀ p, p ∈ resolved ↔ lo ≤ p ≤ hi) →
  renders_range env file_path lo hi images →
  ∃ texts, extract_text env t file_path pages language = inr texts
           ∧ length texts = Z.to_nat (hi - lo + 1).
Proof.
  intros Hr Hres Hne Hrange Hrender.
  pose proof (convert_pdf_to_images_contiguous _ _ _ _ _ _ Hne Hrange Hrender) as Hconv.
  eexists. split; [by apply (extract_text_rendered _ _ _ _ _ total resolved images)|].
  rewrite length_imap. by destruct Hrender as (_ & _ & _ & ->).
Qed.

(** ** Absent and empty selections *)

(** With no selection ([None]) every page of the document is processed. *)
Lemma extract_text_all_pages env t file_path language total images :
  readable env file_path total →
  1 ≤ total →
  renders_range env file_path 1 total images →
  ∃ texts, extract_text env t file_path None language = inr texts
           ∧ length texts = Z.to_nat total.
Proof.
  intros Hr Ht Hrender.
  destruct (extract_text_contiguous env t file_path None language total
              (range 1 (total + 1)) 1 total images) as (texts & Htexts & Hlen);
    try done.
  - unfold range. intros Hnil. apply (f_equal length) in Hnil.
    rewrite length_seqZ in Hnil. simpl in Hnil. lia.
  - intros p. unfold range. rewrite elem_of_seqZ. lia.
  - exists texts. split; [done|]. rewrite Hlen. f_equal. lia.
Qed.

(** C1, the empty selection.  On a readable document the empty list is not
    resolved to the full range: it passes validation, stays empty after
    sorting, and [min] of the empty list raises inside the rendering step,
    so the request fails with an OCR error. *)
Theorem extract_text_empty_selection_fails env t file_path language total pdf_bytes :
  readable env file_path total →
  read_file env file_path = inr pdf_bytes →
  pages_to_process total (Some []) = inr []
  ∧ extract_text env t file_path (Some []) language
    = raise OCRError
        "OCR processing failed: Failed to convert PDF to images: min() arg is an empty sequence".
Proof.
  intros Hr Hread. split; [reflexivity|].
  rewrite (extract_text_readable _ _ _ _ _ total) by done.
  assert (pages_to_process total (Some []) = inr []) as -> by reflexivity.
  rewrite bind_inr. unfold _convert_pdf_to_images. rewrite Hread. reflexivity.
Qed.

Lemma extract_text_empty_selection_fails_witness :
  pages_to_process 3 (Some []) = inr []
  ∧ extract_text (mock_env [hello_page; hello_page; hello_page]) 50 sample_pdf (Some []) "eng"
    = raise OCRError
        "OCR processing failed: Failed to convert PDF to images: min() arg is an empty sequence".
Proof.
  apply (extract_text_empty_selection_fails
           (mock_env [hello_page; hello_page; hello_page]) 50 sample_pdf "eng" 3 pdf_magic).
  - split; reflexivity.
  - reflexivity.
Defined.

(** The same document with no selection at all yields its three pages. *)
Example extract_text_none_selection :
  extract_text (mock_env [hello_page; hello_page; hello_page]) 50 sample_pdf None "eng"
  = inr ["Hello World"; "Hello World"; "Hello World"].
Proof. reflexivity. Qed.

(** The table pipeline, the sibling of [extract_text], does cover the
    empty selection: it opens the document with [pages=None], all pages. *)
Lemma extract_tables_empty_selection env t file_path language total :
  readable env file_path total →
  extract_tables env t file_path (Some []) language =
  try_except
    (paddle ← PaddleOCR env (_convert_language_code language);
     doc ← PDF env (path_str file_path) None;
     extracted_tables ← doc_extract_tables env doc paddle t;
     excel_file_path ← NamedTemporaryFile env ".xlsx";
     _ ← to_xlsx env doc excel_file_path paddle t;
     mret (excel_file_path, _generate_tables_metadata extracted_tables []))
    (fun e =>
       if isinstance e [PDFReadError; ValidationError] then inl e
       else raise ConversionError ("Table extraction failed: " +:+ str e)).
Proof.
  intros [Hv Hc]. unfold extract_tables. by rewrite Hv, bind_inr, Hc, bind_inr.
Qed.

(** ** Duplicate page numbers *)

Lemma remove_dups_length_le (l : list Z) : (length (remove_dups l) ≤ length l)%nat.
Proof.
  induction l as [|x l IH]; simpl; [lia|].
  destruct (decide_rel elem_of x l); simpl; lia.
Qed.

Lemma remove_dups_length_lt (l : list Z) :
  ¬ NoDup l → (length (remove_dups l) < length l)%nat.
Proof.
  induction l as [|x l IH]; intros Hdup.
  - destruct Hdup. constructor.
  - simpl. destruct (decide_rel elem_of x l) as [Hin|Hnin]; simpl.
    + pose proof (remove_dups_length_le l). lia.
    + assert (¬ NoDup l) as Hl by (intros Hl; apply Hdup; by constructor).
      specialize (IH Hl). lia.
Qed.

Lemma remove_dups_length_range (l : list Z) (lo hi : Z) :
  (∀ p, p ∈ l ↔ lo ≤ p ≤ hi) →
  length (remove_dups l) = Z.to_nat (hi - lo + 1).
Proof.
  intros Hrange.
  assert (remove_dups l ≡ₚ seqZ lo (hi - lo + 1)) as ->.
  { apply NoDup_Permutation; [apply NoDup_remove_dups | apply NoDup_seqZ |].
    intros p. rewrite elem_of_remove_dups, Hrange, elem_of_seqZ. lia. }
  by rewrite length_seqZ.
Qed.

(** C10.  A valid selection with repeated page numbers whose values are
    exactly those of a range [lo..hi] is rendered once as that range: the
    result has one string per distinct page, fewer than the selection has
    entries. *)
Theorem contiguous_duplicates_collapse env t file_path language total
    (pages : list Z) (lo hi : Z) images :
  readable env file_path total →
  Forall (λ p, 1 ≤ p ≤ total) pages →
  ¬ NoDup pages →
  (∀ p, p ∈ pages ↔ lo ≤ p ≤ hi) →
  renders_range env file_path lo hi images →
  ∃ texts, extract_text env t file_path (Some pages) language = inr texts
           ∧ length texts = length (remove_dups pages)
           ∧ (length texts < length pages)%nat.
Proof.
  intros Hr Hvalid Hdup Hrange Hrender.
  destruct (extract_text_contiguous env t file_path (Some pages) language total
              (sorted pages) lo hi images) as (texts & Htexts & Hlen); try done.
  - by apply pages_to_process_valid.
  - intros Hnil. apply Hdup.
    assert (pages ≡ₚ []) as Hp by (rewrite <- Hnil; symmetry; apply merge_sort_Permutation).
    apply Permutation_nil_r in Hp as ->. constructor.
  - intros p. unfold sorted. rewrite merge_sort_Permutation. apply Hrange.
  - exists texts. rewrite Hlen, <- (remove_dups_length_range pages lo hi Hrange).
    split_and!; [done | done | by apply remove_dups_length_lt].
Qed.

Lemma contiguous_duplicates_collapse_witness :
  ∃ texts,
    extract_text (mock_env (replicate 5 hello_page)) 50 sample_pdf (Some [3; 3]) "eng"
    = inr texts
    ∧ length texts = length (remove_dups [3; 3])
    ∧ (length texts < length [3; 3])%nat.
Proof.
  apply (contiguous_duplicates_collapse
           (mock_env (replicate 5 hello_page)) 50 sample_pdf "eng" 5 [3; 3] 3 3 [hello_page]).
  - split; reflexivity.
  - repeat constructor; lia.
  - intros Hnd. apply NoDup_cons in Hnd as [Hnin _]. apply Hnin. left.
  - intros p. rewrite !elem_of_cons, elem_of_nil. lia.
  - exists pdf_magic. split_and!; reflexivity.
Defined.

(** Selection [3, 3] on a five-page document: one string for two entries. *)
Example extract_text_duplicate_page :
  extract_text (mock_env (replicate 5 hello_page)) 50 sample_pdf (Some [3; 3]) "eng"
  = inr ["Hello World"].
Proof. reflexivity. Qed.

(** * Properties of the rest of the code *)

(** ** Unit tests of the filename validator, replayed *)

(** tests/test_file_validator.py, test_validate_filename_valid, _empty and
    _wrong_extension *)
Example test_validate_filename_valid :
  validate_filename (FileValidatorImpl_init None) "document.pdf" = inr true.
Proof. reflexivity. Qed.

Example test_validate_filename_empty :
  validate_filename (FileValidatorImpl_init None) ""
  = raise ValidationError "Filename cannot be empty".
Proof. reflexivity. Qed.

Example test_validate_filename_wrong_extension :
  validate_filename (FileValidatorImpl_init None) "document.txt"
  = raise ValidationError "File extension '.txt' not allowed. Allowed extensions: .pdf".
Proof. reflexivity. Qed.

(** tests/test_file_validator.py, test_validate_filename_dangerous_characters *)
Example test_validate_filename_dangerous_characters :
  Forall (λ name, validate_filename (FileValidatorImpl_init None) name
                  = raise ValidationError "Filename contains invalid characters")
    ["../document.pdf"; "document/path.pdf"; "document\path.pdf"; "document:path.pdf";
     "document*.pdf"; "document?.pdf"; "document" +:+ quote +:+ "path.pdf";
     "document<path.pdf"; "document>path.pdf"; "document|path.pdf"].
Proof. repeat constructor. Qed.

(** ** What the stream probes accept *)

Lemma startswith_spec (header prefix : bytes) :
  startswith header prefix = true ↔ ∃ rest, header = prefix ++ rest.
Proof.
  revert header. induction prefix as [|p prefix IH]; intros header.
  - destruct header; simpl; split; eauto.
  - destruct header as [|h header]; simpl.
    + split; [done | intros [rest Hr]; discriminate Hr].
    + rewrite andb_true_iff, IH. split.
      * intros [Hb [rest ->]]. apply Byte.byte_dec_bl in Hb as ->. eauto.
      * intros [rest Hr]. injection Hr as -> ->. split; [apply Byte.byte_dec_lb; done | eauto].
Qed.

Lemma has_signature_take (buf : bytes) :
  (∃ rest, take 8 buf = pdf_magic ++ rest) ↔ (∃ rest, buf = pdf_magic ++ rest).
Proof.
  split.
  - intros [rest Hr]. exists (rest ++ drop 8 buf).
    rewrite app_assoc, <- Hr. by rewrite take_drop.
  - intros [rest ->]. exists (take 3 rest). reflexivity.
Qed.

Lemma validate_file_type_open (buf : bytes) (pos : nat) :
  run validate_file_type (Stream buf pos false)
  = (if startswith (take 8 buf) pdf_magic then inr true
     else raise ValidationError "File is not a valid PDF",
     Stream buf pos false).
Proof.
  unfold validate_file_type. unfold_io.
  cbn -[take drop startswith pdf_magic Z.to_nat Z.of_nat]. rewrite Nat2Z.id.
  replace (Z.of_nat pos <? 0) with false by (symmetry; apply Z.ltb_ge; lia).
  cbn -[take drop startswith pdf_magic Z.to_nat Z.of_nat].
  by destruct (startswith _ _).
Qed.

(** X1.  On an open stream the type probe looks at the start of the buffer
    whatever the read position is: it returns [True] exactly when the buffer
    begins with the five bytes [%PDF-], and otherwise raises the validation
    error "File is not a valid PDF". *)
Theorem validate_file_type_accepts_iff (buf : bytes) (pos : nat) :
  ((run validate_file_type (Stream buf pos false)).1 = inr true
   ↔ ∃ rest, buf = pdf_magic ++ rest)
  ∧ ((run validate_file_type (Stream buf pos false)).1 = inr true
     ∨ (run validate_file_type (Stream buf pos false)).1
       = raise ValidationError "File is not a valid PDF").
Proof.
  rewrite validate_file_type_open. simpl.
  rewrite <- has_signature_take, <- startswith_spec.
  destruct (startswith (take 8 buf) pdf_magic); split; auto; done.
Qed.

Lemma validate_file_size_open (max_size_mb : Z) (buf : bytes) (pos : nat) :
  run (validate_file_size max_size_mb) (Stream buf pos false)
  = (if max_size_mb * 1048576 <? Z.of_nat (length buf)
     then raise ValidationError
            ("File size (" +:+ format_mb (Z.of_nat (length buf))
             +:+ " MB) exceeds maximum allowed size (" +:+ repr_int max_size_mb +:+ " MB)")
     else inr true,
     Stream buf pos false).
Proof.
  unfold validate_file_size. unfold_io.
  cbn -[Z.of_nat Z.to_nat Z.mul Z.ltb format_mb repr_int Z.max Z.add].
  rewrite Nat2Z.id.
  replace (Z.of_nat pos <? 0) with false by (symmetry; apply Z.ltb_ge; lia).
  cbn -[Z.of_nat Z.to_nat Z.mul Z.ltb format_mb repr_int Z.max Z.add].
  rewrite Z.add_0_r, Z.max_r, Nat2Z.id by lia.
  by destruct (_ <? _).
Qed.

(** X2.  On an open stream the size probe measures the whole buffer
    whatever the read position is: it returns [True] exactly when the buffer
    holds at most [max_size_mb * 2^20] bytes (the limit itself is accepted),
    and otherwise raises a validation error that quotes the size in
    megabytes with two decimals and the limit. *)
Theorem validate_file_size_accepts_iff (max_size_mb : Z) (buf : bytes) (pos : nat) :
  ((run (validate_file_size max_size_mb) (Stream buf pos false)).1 = inr true
   ↔ Z.of_nat (length buf) ≤ max_size_mb * 1048576)
  ∧ ((run (validate_file_size max_size_mb) (Stream buf pos false)).1 = inr true
     ∨ (run (validate_file_size max_size_mb) (Stream buf pos false)).1
       = raise ValidationError
           ("File size (" +:+ format_mb (Z.of_nat (length buf))
            +:+ " MB) exceeds maximum allowed size (" +:+ repr_int max_size_mb +:+ " MB)")).
Proof.
  rewrite validate_file_size_open. cbn [fst].
  destruct (Z.ltb_spec (max_size_mb * 1048576) (Z.of_nat (length buf))); split; auto.
  - split; [discriminate | lia].
  - split; [lia | done].
Qed.

(** X3.  Whatever the stream, the only exception either probe raises is a
    [ValidationError]; on a closed stream it is the wrapped I/O error. *)
Theorem probes_raise_validation_error (file : BytesIO) (max_size_mb : Z) :
  (∀ e, (run validate_file_type file).1 = inl e → class_of e = ValidationError)
  ∧ (∀ e, (run (validate_file_size max_size_mb) file).1 = inl e
          → class_of e = ValidationError)
  ∧ (closed file = true →
     (run validate_file_type file).1
     = raise ValidationError "Cannot validate file type: I/O operation on closed file."
     ∧ (run (validate_file_size max_size_mb) file).1
       = raise ValidationError "Cannot validate file size: I/O operation on closed file.").
Proof.
  destruct file as [buf pos [|]].
  - split_and!; [intros e H; by injection H as <- .. | done].
  - rewrite validate_file_type_open, validate_file_size_open. cbn [fst]. split_and!.
    + intros e. destruct (startswith _ _); [discriminate | by intros [= <-]].
    + intros e. destruct (_ <? _); [by intros [= <-] | discriminate].
    + discriminate.
Qed.

(** ** Filename validation *)

Lemma string_prefix_spec (p s : string) :
  String.prefix p s = true ↔ ∃ r, s = p +:+ r.
Proof.
  revert s. induction p as [|a p IH]; intros s.
  - destruct s; simpl; split; eauto.
  - destruct s as [|b s]; simpl.
    + split; [done | intros [r Hr]; discriminate Hr].
    + destruct (Ascii.ascii_dec a b) as [->|Hne].
      * rewrite IH. split; intros [r Hr]; exists r.
        -- by rewrite Hr.
        -- rewrite string_app_cons in Hr. by injection Hr.
      * split; [done|]. intros [r Hr]. rewrite string_app_cons in Hr.
        injection Hr as Hab _. by destruct Hne.
Qed.

Lemma str_contains_spec (s sub : string) :
  str_contains s sub = true ↔ mentions s sub.
Proof.
  induction s as [|c s IH]; cbn [str_contains]; rewrite orb_true_iff, string_prefix_spec.
  - split.
    + intros [[r Hr]|Hf]; [|done]. by exists "", r.
    + intros (pre & post & Hs). left. destruct pre as [|x pre]; [|discriminate Hs].
      by exists post.
  - rewrite IH. split.
    + intros [[r Hr]|(pre & post & ->)]; [by exists "", r|].
      exists (String c pre), post. by rewrite string_app_cons.
    + intros (pre & post & Hs). destruct pre as [|x pre].
      * left. by exists post.
      * right. rewrite string_app_cons in Hs. injection Hs as _ ->. by exists pre, post.
Qed.

Lemma dangerous_free_spec (filename : string) :
  existsb (str_contains filename) dangerous_chars = false
  ↔ ∀ d, d ∈ dangerous_chars → ¬ mentions filename d.
Proof.
  rewrite <- not_true_iff_false, existsb_exists. split.
  - intros Hno d Hd Hm. apply Hno. exists d. split.
    + by apply list_elem_of_In.
    + by apply str_contains_spec.
  - intros Hall (d & Hd & Hc). apply (Hall d).
    + by apply list_elem_of_In.
    + by apply str_contains_spec.
Qed.

(** The validator, check by check. *)
Lemma validate_filename_cases (allowed_extensions : list string) (filename : string) :
  validate_filename allowed_extensions filename =
  if bool_decide (filename = "") then raise ValidationError "Filename cannot be empty"
  else if bool_decide (lower (path_suffix filename) ∈ allowed_extensions)
       then if existsb (str_contains filename) dangerous_chars
            then raise ValidationError "Filename contains invalid characters"
            else inr true
       else raise ValidationError
              ("File extension '" +:+ lower (path_suffix filename)
               +:+ "' not allowed. Allowed extensions: " +:+ join ", " allowed_extensions).
Proof.
  unfold validate_filename, str_truthy.
  destruct (bool_decide (filename = "")); [reflexivity|].
  cbn -[existsb dangerous_chars str_contains lower path_suffix join].
  destruct (bool_decide (lower (path_suffix filename) ∈ allowed_extensions));
    [|reflexivity].
  cbn -[existsb dangerous_chars str_contains lower path_suffix join].
  by destruct (existsb (str_contains filename) dangerous_chars).
Qed.

(** X4.  A filename is accepted exactly when it is not empty, its
    lower-cased extension is one of the allowed extensions, and none of the
    ten forbidden fragments (two dots, slash, backslash, colon, star,
    question mark, quotation mark, angle brackets, bar) occurs in it; every
    other filename is refused with a [ValidationError]. *)
Theorem validate_filename_accepts_iff (allowed_extensions : list string) (filename : string) :
  (validate_filename allowed_extensions filename = inr true
   ↔ filename ≠ ""
     ∧ lower (path_suffix filename) ∈ allowed_extensions
     ∧ ∀ d, d ∈ dangerous_chars → ¬ mentions filename d)
  ∧ (validate_filename allowed_extensions filename = inr true
     ∨ ∃ msg, validate_filename allowed_extensions filename = raise ValidationError msg).
Proof.
  rewrite validate_filename_cases, <- dangerous_free_spec.
  destruct (decide (filename = "")) as [He|He];
    [rewrite (bool_decide_eq_true_2 _ He) | rewrite (bool_decide_eq_false_2 _ He)].
  { split; [split; [discriminate | tauto] | right; eauto]. }
  destruct (decide (lower (path_suffix filename) ∈ allowed_extensions)) as [Hx|Hx];
    [rewrite (bool_decide_eq_true_2 _ Hx) | rewrite (bool_decide_eq_false_2 _ Hx)].
  - destruct (existsb (str_contains filename) dangerous_chars).
    + split; [split; [discriminate | intros (_ & _ & ?); discriminate] | right; eauto].
    + split; [split; done | by left].
  - split; [split; [discriminate | tauto] | right; eauto].
Qed.

(** X5.  The first failing check decides the message: an empty name is
    reported as such; otherwise a wrong extension is reported, with the
    extension found and the allowed ones, even when the name also holds a
    forbidden fragment; only then are forbidden fragments reported. *)
Theorem validate_filename_first_failure (allowed_extensions : list string) (filename : string) :
  (filename = "" →
   validate_filename allowed_extensions filename
   = raise ValidationError "Filename cannot be empty")
  ∧ (filename ≠ "" → lower (path_suffix filename) ∉ allowed_extensions →
     validate_filename allowed_extensions filename
     = raise ValidationError
         ("File extension '" +:+ lower (path_suffix filename)
          +:+ "' not allowed. Allowed extensions: " +:+ join ", " allowed_extensions))
  ∧ (∀ d, filename ≠ "" → lower (path_suffix filename) ∈ allowed_extensions →
          d ∈ dangerous_chars → mentions filename d →
     validate_filename allowed_extensions filename
     = raise ValidationError "Filename contains invalid characters").
Proof.
  rewrite validate_filename_cases. split_and!.
  - intros ->. reflexivity.
  - intros Hne Hext. by rewrite bool_decide_eq_false_2, bool_decide_eq_false_2.
  - intros d Hne Hext Hd Hm.
    rewrite bool_decide_eq_false_2, bool_decide_eq_true_2 by done.
    destruct (existsb (str_contains filename) dangerous_chars) eqn:He; [done|].
    by destruct (proj1 (dangerous_free_spec filename) He d Hd).
Qed.

Lemma split_slash_no_slash (s : string) :
  ¬ mentions s "/" → split_slash s = [s].
Proof.
  induction s as [|c s IH]; intros Hno; [reflexivity|].
  cbn [split_slash]. case_bool_decide as Hc.
  - destruct Hno. exists "", s. by rewrite Hc.
  - rewrite IH; [reflexivity|].
    intros (pre & post & ->). apply Hno. exists (String c pre), post.
    by rewrite string_app_cons.
Qed.

Lemma path_name_no_slash (s : string) :
  ¬ mentions s "/" → path_name s = s ∨ path_name s = "".
Proof.
  intros Hno. unfold path_name. rewrite split_slash_no_slash by done.
  destruct (decide (s ≠ "" ∧ s ≠ ".")) as [Hs|Hs].
  - left. by rewrite filter_cons_True.
  - right. by rewrite filter_cons_False.
Qed.

Lemma from_last_dot_spec (s t : string) :
  from_last_dot s = Some t → ∃ pre, s = pre +:+ t.
Proof.
  revert t. induction s as [|c s IH]; intros t; [discriminate|].
  cbn [from_last_dot]. destruct (from_last_dot s) as [t'|].
  - intros [= <-]. destruct (IH t' eq_refl) as [pre ->].
    exists (String c pre). by rewrite string_app_cons.
  - case_bool_decide; [|discriminate]. intros [= <-]. by exists "".
Qed.

Lemma path_suffix_stem (filename : string) :
  ¬ mentions filename "/" → path_suffix filename ≠ "" →
  ∃ stem, stem ≠ "" ∧ filename = stem +:+ path_suffix filename.
Proof.
  intros Hno Hsuf. unfold path_suffix in *.
  destruct (path_name_no_slash filename Hno) as [Hn|Hn]; rewrite Hn in *; [|done].
  destruct filename as [|c rest]; [done|].
  destruct (from_last_dot rest) as [t|] eqn:Hdot; [|done].
  destruct (from_last_dot_spec rest t Hdot) as [pre ->].
  case_bool_decide; [done|].
  exists (String c pre). split; [done | by rewrite string_app_cons].
Qed.

(** X6.  With the default extensions, an accepted filename is a bare file
    name (no slash in it) made of a non-empty stem followed by an extension
    that reads [.pdf] once lower-cased: [.pdf] alone, or a name without an
    extension, is never accepted. *)
Theorem validate_filename_default_shape (filename : string) :
  validate_filename (FileValidatorImpl_init None) filename = inr true →
  ¬ mentions filename "/"
  ∧ ∃ stem ext, filename = stem +:+ ext ∧ stem ≠ "" ∧ lower ext = ".pdf".
Proof.
  intros Hok.
  apply (proj1 (validate_filename_accepts_iff _ _)) in Hok as (Hne & Hext & Hdanger).
  assert (¬ mentions filename "/") as Hno.
  { apply Hdanger. unfold dangerous_chars. right. left. }
  split; [done|].
  cbn [FileValidatorImpl_init] in Hext. apply list_elem_of_singleton in Hext.
  destruct (path_suffix_stem filename Hno) as (stem & Hstem & Hfile).
  { intros Hs. rewrite Hs in Hext. by simpl in Hext. }
  by exists stem, (path_suffix filename).
Qed.

Lemma validate_filename_default_shape_witness :
  ¬ mentions "Report.PDF" "/"
  ∧ ∃ stem ext, "Report.PDF" = stem +:+ ext ∧ stem ≠ "" ∧ lower ext = ".pdf".
Proof.
  apply (validate_filename_default_shape "Report.PDF"). reflexivity.
Defined.

(** ** The upload check *)

Lemma render_upload_section_cases (max_file_size_mb : Z) (content : bytes) (name : string) :
  _render_upload_section max_file_size_mb content name =
  if startswith (take 8 content) pdf_magic
  then if max_file_size_mb * 1048576 <? Z.of_nat (length content)
       then Refused ("File size (" +:+ format_mb (Z.of_nat (length content))
                     +:+ " MB) exceeds maximum allowed size ("
                     +:+ repr_int max_file_size_mb +:+ " MB)")
       else match validate_filename [".pdf"] name with
            | inr _ => Uploaded ("File '" +:+ name +:+ "' uploaded successfully!")
            | inl e => Refused (str e)
            end
  else Refused "File is not a valid PDF".
Proof.
  unfold _render_upload_section. rewrite run_bind, validate_file_type_open.
  destruct (startswith (take 8 content) pdf_magic); [|reflexivity].
  rewrite run_bind, validate_file_size_open.
  destruct (_ <? _); [reflexivity|].
  cbn [io_lift run fst FileValidatorImpl_init].
  destruct (validate_filename_accepts_iff [".pdf"] name) as [_ [->|[msg ->]]]; reflexivity.
Qed.

(** X7.  An upload is kept exactly when its content begins with [%PDF-],
    it holds at most [max_file_size_mb * 2^20] bytes and its name passes the
    default filename validation.  The checks run in that order and the first
    failure is the message shown: content that is not a PDF is reported as
    such whatever its size and name.  No exception leaves the upload
    section. *)
Theorem render_upload_section_spec (max_file_size_mb : Z) (content : bytes) (name : string) :
  (_render_upload_section max_file_size_mb content name
   = Uploaded ("File '" +:+ name +:+ "' uploaded successfully!")
   ↔ (∃ rest, content = pdf_magic ++ rest)
     ∧ Z.of_nat (length content) ≤ max_file_size_mb * 1048576
     ∧ validate_filename [".pdf"] name = inr true)
  ∧ ((¬ ∃ rest, content = pdf_magic ++ rest) →
     _render_upload_section max_file_size_mb content name
     = Refused "File is not a valid PDF")
  ∧ (∀ e, _render_upload_section max_file_size_mb content name ≠ Escaped e).
Proof.
  rewrite render_upload_section_cases, <- has_signature_take, <- startswith_spec.
  destruct (startswith (take 8 content) pdf_magic).
  - destruct (Z.ltb_spec (max_file_size_mb * 1048576) (Z.of_nat (length content))).
    + split_and!; [split; [discriminate | lia] | done | discriminate].
    + destruct (validate_filename_accepts_iff [".pdf"] name) as [_ [->|[msg ->]]].
      * split_and!; [split; [done | done] | done | discriminate].
      * split_and!; [split; [discriminate | intros (_ & _ & ?); discriminate]
                    | done | discriminate].
  - split_and!; [split; [discriminate | intros ([=] & _)] | done | discriminate].
Qed.

(** ** Document validation and page count *)

Lemma bind_mret {A B} (f : A → result B) (x : A) : (mret x ≫= f) = f x.
Proof. reflexivity. Qed.

Lemma isinstance_read_or_validation (e : exn) :
  isinstance e [PDFReadError; ValidationError] = true
  ↔ class_of e = PDFReadError ∨ class_of e = ValidationError.
Proof. destruct e as [[] msg]; simpl; intuition discriminate. Qed.

Lemma isinstance_read (e : exn) :
  isinstance e [PDFReadError] = true ↔ class_of e = PDFReadError.
Proof. destruct e as [[] msg]; simpl; intuition discriminate. Qed.

(** X8.  [validate_file] returns [True] exactly when the path exists, its
    suffix reads [.pdf] once lower-cased, and the PDF reader opens it and
    finds at least one page.  A document with no page is refused with
    "PDF file contains no pages", and anything else the reader raises is
    turned into a [PDFReadError]; no other exception class than
    [PDFReadError] and [ValidationError] comes out. *)
Theorem validate_file_spec (env : collaborators) (file_path : Path) :
  (validate_file env file_path = inr true
   ↔ path_exists env file_path = true
     ∧ lower (suffix file_path) = ".pdf"
     ∧ ∃ n, reader_pages env file_path = inr n ∧ n ≠ 0)
  ∧ (path_exists env file_path = true → lower (suffix file_path) = ".pdf" →
     reader_pages env file_path = inr 0 →
     validate_file env file_path = raise PDFReadError "PDF file contains no pages")
  ∧ (∀ e, validate_file env file_path = inl e →
          class_of e = PDFReadError ∨ class_of e = ValidationError)
  ∧ (∀ b, validate_file env file_path = inr b → b = true).
Proof.
  unfold validate_file.
  destruct (path_exists env file_path); cbn [negb].
  2:{ split_and!; try done.
      - split; [discriminate | intros [[=] _]].
      - intros e [= <-]. by left. }
  rewrite bind_mret.
  destruct (decide (lower (suffix file_path) = ".pdf")) as [Hs|Hs];
    [rewrite (bool_decide_eq_true_2 _ Hs) | rewrite (bool_decide_eq_false_2 _ Hs)];
    cbn [negb].
  2:{ split_and!; try done.
      - split; [discriminate | intros (_ & ? & _); done].
      - intros e [= <-]. by right. }
  rewrite bind_mret.
  destruct (reader_pages env file_path) as [e0|n].
  - rewrite bind_inl. unfold try_except.
    destruct (isinstance e0 [PDFReadError; ValidationError]) eqn:Hi.
    + split_and!; try done.
      * split; [discriminate | intros (_ & _ & n & [=] & _)].
      * intros e [= <-]. by apply isinstance_read_or_validation.
    + split_and!; try done.
      * split; [discriminate | intros (_ & _ & n & [=] & _)].
      * intros e [= <-]. by left.
  - rewrite bind_inr. destruct (Z.eqb_spec n 0) as [->|Hn].
    + split_and!; try done.
      * split; [discriminate | intros (_ & _ & n & [= <-] & ?); done].
      * intros e [= <-]. by left.
    + split_and!; try done.
      * split; [eauto | done].
      * intros _ _ [= ->]. done.
      * by intros b [= <-].
Qed.

(** X9.  [get_page_count] returns a number exactly when [validate_file]
    accepts the document and the reader reports that number, which is then
    never zero; every failure, a wrong suffix included, comes out as a
    [PDFReadError]. *)
Theorem get_page_count_spec (env : collaborators) (file_path : Path) :
  (∀ n, get_page_count env file_path = inr n
        ↔ validate_file env file_path = inr true ∧ reader_pages env file_path = inr n)
  ∧ (∀ n, get_page_count env file_path = inr n → n ≠ 0)
  ∧ (∀ e, get_page_count env file_path = inl e → class_of e = PDFReadError).
Proof.
  destruct (validate_file_spec env file_path) as (Hiff & _ & Hcls & Htrue).
  unfold get_page_count.
  destruct (validate_file env file_path) as [e0|b] eqn:Hv.
  - rewrite bind_inl. unfold try_except. split_and!.
    + intros n. split; [destruct (isinstance _ _); discriminate | intros [[=] _]].
    + intros n. destruct (isinstance _ _); discriminate.
    + intros e. destruct (isinstance e0 [PDFReadError]) eqn:Hi.
      * intros [= <-]. by apply isinstance_read.
      * by intros [= <-].
  - rewrite (Htrue b eq_refl) in *. rewrite bind_inr.
    destruct (proj1 Hiff eq_refl) as (_ & _ & n0 & Hn0 & Hnz).
    rewrite Hn0. cbn. split_and!.
    + intros n. split; [intros [= <-]; done | intros [_ [= <-]]; done].
    + by intros n [= <-].
    + discriminate.
Qed.

(** ** Error classes of the pipelines *)

Lemma handler_classes {A} (body : result A) (classes : list exn_class) (c : exn_class)
    (wrap : exn → string) (e : exn) :
  try_except body
    (fun e0 => if isinstance e0 classes then inl e0 else raise c (wrap e0)) = inl e →
  isinstance e classes = true ∨ class_of e = c.
Proof.
  destruct body as [e0|x]; [|discriminate]. unfold try_except.
  destruct (isinstance e0 classes) eqn:Hi; intros [= <-]; auto.
Qed.

(** X10.  The text pipeline raises nothing but [PDFReadError],
    [ValidationError] and [OCRError], the table pipeline nothing but
    [PDFReadError], [ValidationError] and [ConversionError], and the
    rendering step nothing but [OCRError]: whatever an external library
    raises underneath is wrapped.  All of these are [PDFProcessingError]s. *)
Theorem pipelines_error_classes (env : collaborators) (t : Z) (file_path : Path)
    (pages : option (list Z)) (language : string) :
  (∀ e, extract_text env t file_path pages language = inl e →
        class_of e ∈ [PDFReadError; ValidationError; OCRError]
        ∧ isinstance e [PDFProcessingError] = true)
  ∧ (∀ e, extract_tables env t file_path pages language = inl e →
          class_of e ∈ [PDFReadError; ValidationError; ConversionError]
          ∧ isinstance e [PDFProcessingError] = true)
  ∧ (∀ selection e, _convert_pdf_to_images env file_path selection = inl e →
                    class_of e = OCRError).
Proof.
  split_and!.
  - intros [c msg] He. apply handler_classes in He as [Hi|Hc]; cbn [class_of] in *.
    + apply isinstance_read_or_validation in Hi as [Hc|Hc]; cbn [class_of] in Hc;
        subst c; split; [left | done | right; left | done].
    + subst c. split; [right; right; left | done].
  - intros [c msg] He. apply handler_classes in He as [Hi|Hc]; cbn [class_of] in *.
    + apply isinstance_read_or_validation in Hi as [Hc|Hc]; cbn [class_of] in Hc;
        subst c; split; [left | done | right; left | done].
    + subst c. split; [right; right; left | done].
  - intros selection e. unfold _convert_pdf_to_images, try_except.
    destruct (_ ≫= _); [by intros [= <-] | discriminate].
Qed.

(** X11.  When [validate_file] refuses the document, both pipelines raise
    that very exception, whatever the selection, the language and the
    threshold are: neither page resolution nor rendering is reached.  In
    particular a PDF without pages fails with "PDF file contains no
    pages". *)
Theorem validation_failure_propagates (env : collaborators) (t : Z) (file_path : Path)
    (pages : option (list Z)) (language : string) (e : exn) :
  validate_file env file_path = inl e →
  extract_text env t file_path pages language = inl e
  ∧ extract_tables env t file_path pages language = inl e.
Proof.
  intros Hv.
  destruct (validate_file_spec env file_path) as (_ & _ & Hcls & _).
  assert (isinstance e [PDFReadError; ValidationError] = true) as Hi
    by (by apply isinstance_read_or_validation, Hcls).
  unfold extract_text, extract_tables. rewrite Hv, !bind_inl. unfold try_except.
  by rewrite Hi.
Qed.

Lemma validation_failure_propagates_witness :
  extract_text (mock_env []) 50 sample_pdf (Some [1]) "eng"
  = raise PDFReadError "PDF file contains no pages"
  ∧ extract_tables (mock_env []) 50 sample_pdf (Some [1]) "eng"
    = raise PDFReadError "PDF file contains no pages".
Proof.
  apply (validation_failure_propagates (mock_env []) 50 sample_pdf (Some [1]) "eng").
  reflexivity.
Defined.

(** ** Page resolution as an operation *)

Lemma Sorted_seqZ (k : nat) : ∀ m, Sorted Z.le (seqZ m (Z.of_nat k)).
Proof.
  induction k as [|k IH]; intros m; [constructor|].
  rewrite seqZ_cons by lia. replace (Z.pred (Z.of_nat (S k))) with (Z.of_nat k) by lia.
  constructor; [apply IH|].
  destruct k as [|k]; [constructor|].
  rewrite seqZ_cons by lia. constructor. lia.
Qed.

Lemma Sorted_range (a b : Z) : Sorted Z.le (range a b).
Proof.
  unfold range. destruct (decide (0 ≤ b - a)) as [Hle|Hlt].
  - rewrite <- (Z2Nat.id (b - a)) by done. apply Sorted_seqZ.
  - rewrite seqZ_nil by lia. constructor.
Qed.

Lemma sorted_of_sorted (l : list Z) : Sorted Z.le l → sorted l = l.
Proof.
  intros Hs. apply (Sorted_unique Z.le); [| done | apply merge_sort_Permutation].
  apply Sorted_merge_sort; apply _.
Qed.

Lemma sorted_Permutation (l1 l2 : list Z) : l1 ≡ₚ l2 → sorted l1 = sorted l2.
Proof.
  intros Hp. apply (Sorted_unique Z.le).
  - apply Sorted_merge_sort; apply _.
  - apply Sorted_merge_sort; apply _.
  - unfold sorted. by rewrite !merge_sort_Permutation.
Qed.

Lemma pages_to_process_in_range (total_pages : Z) (pages : option (list Z))
    (resolved : list Z) :
  pages_to_process total_pages pages = inr resolved →
  Sorted Z.le resolved ∧ Forall (λ p, 1 ≤ p ≤ total_pages) resolved.
Proof.
  destruct pages as [pages|]; cbn [pages_to_process].
  - case_bool_decide as Hinv; [discriminate|]. intros [= <-].
    split; [apply Sorted_merge_sort; apply _|].
    assert (invalid_pages total_pages pages = []) as Hnil
      by (destruct (invalid_pages total_pages pages); [done | by destruct Hinv]).
    apply Forall_forall. intros p Hp.
    unfold sorted in Hp. rewrite merge_sort_Permutation in Hp.
    destruct (decide (p < 1 ∨ p > total_pages)) as [Hout|Hin]; [|lia].
    assert (p ∈ invalid_pages total_pages pages) as Hbad
      by (by apply list_elem_of_filter).
    rewrite Hnil in Hbad. by apply elem_of_nil in Hbad.
  - intros [= <-]. split; [apply Sorted_range|].
    apply Forall_forall. intros p. unfold range. rewrite elem_of_seqZ. lia.
Qed.

(** X12.  Page resolution is idempotent and its result is well formed:
    whatever the selection, a resolved list is ascending, lies within
    [1, total], and resolving it again as an explicit selection returns it
    unchanged. *)
Theorem pages_to_process_idempotent (total_pages : Z) (pages : option (list Z))
    (resolved : list Z) :
  pages_to_process total_pages pages = inr resolved →
  Sorted Z.le resolved
  ∧ Forall (λ p, 1 ≤ p ≤ total_pages) resolved
  ∧ pages_to_process total_pages (Some resolved) = inr resolved.
Proof.
  intros Hres. destruct (pages_to_process_in_range _ _ _ Hres) as [Hs Hv].
  split_and!; [done | done |].
  rewrite pages_to_process_valid by done. by rewrite sorted_of_sorted.
Qed.

Lemma pages_to_process_idempotent_witness :
  Sorted Z.le [1; 2; 3; 3]
  ∧ Forall (λ p, 1 ≤ p ≤ 5) [1; 2; 3; 3]
  ∧ pages_to_process 5 (Some [1; 2; 3; 3]) = inr [1; 2; 3; 3].
Proof.
  apply (pages_to_process_idempotent 5 (Some [3; 1; 3; 2])). reflexivity.
Defined.

(** X13.  The order in which a valid selection lists its pages does not
    matter: two valid selections that are permutations of each other give
    the same result, in text mode and in table mode. *)
Theorem selection_order_is_irrelevant (env : collaborators) (t : Z) (file_path : Path)
    (language : string) (total : Z) (pages pages' : list Z) :
  get_page_count env file_path = inr total →
  Forall (λ p, 1 ≤ p ≤ total) pages →
  pages ≡ₚ pages' →
  extract_text env t file_path (Some pages) language
  = extract_text env t file_path (Some pages') language
  ∧ extract_tables env t file_path (Some pages) language
    = extract_tables env t file_path (Some pages') language.
Proof.
  intros Hc Hv Hp.
  assert (Forall (λ p, 1 ≤ p ≤ total) pages') as Hv' by (by rewrite <- Hp).
  assert (pages_to_process total (Some pages) = pages_to_process total (Some pages')) as Hres.
  { rewrite !pages_to_process_valid by done. f_equal. by apply sorted_Permutation. }
  unfold extract_text, extract_tables.
  destruct (validate_file env file_path) as [e|b]; [done|].
  by rewrite !bind_inr, Hc, !bind_inr, Hres.
Qed.

Lemma selection_order_is_irrelevant_witness :
  extract_text (mock_env [hello_page; unreadable_page; hello_page]) 50 sample_pdf
    (Some [3; 1]) "eng"
  = extract_text (mock_env [hello_page; unreadable_page; hello_page]) 50 sample_pdf
      (Some [1; 3]) "eng"
  ∧ extract_tables (mock_env [hello_page; unreadable_page; hello_page]) 50 sample_pdf
      (Some [3; 1]) "eng"
    = extract_tables (mock_env [hello_page; unreadable_page; hello_page]) 50 sample_pdf
        (Some [1; 3]) "eng".
Proof.
  apply (selection_order_is_irrelevant
           (mock_env [hello_page; unreadable_page; hello_page]) 50 sample_pdf "eng" 3).
  - reflexivity.
  - repeat constructor; lia.
  - apply perm_swap.
Defined.

(** X14.  Selecting every page explicitly is the same as selecting none:
    with [total] pages, the selection [1..total] and the absent selection
    give the same result in text mode and in table mode. *)
Theorem full_selection_is_no_selection (env : collaborators) (t : Z) (file_path : Path)
    (language : string) (total : Z) :
  get_page_count env file_path = inr total →
  extract_text env t file_path (Some (range 1 (total + 1))) language
  = extract_text env t file_path None language
  ∧ extract_tables env t file_path (Some (range 1 (total + 1))) language
    = extract_tables env t file_path None language.
Proof.
  intros Hc.
  destruct (pages_to_process_idempotent total None (range 1 (total + 1)) eq_refl)
    as (_ & _ & Hres).
  unfold extract_text, extract_tables.
  destruct (validate_file env file_path) as [e|b]; [done|].
  by rewrite !bind_inr, Hc, !bind_inr, Hres.
Qed.

Lemma full_selection_is_no_selection_witness :
  extract_text (mock_env [hello_page; unreadable_page]) 50 sample_pdf (Some [1; 2]) "eng"
  = extract_text (mock_env [hello_page; unreadable_page]) 50 sample_pdf None "eng"
  ∧ extract_tables (mock_env [hello_page; unreadable_page]) 50 sample_pdf (Some [1; 2]) "eng"
    = extract_tables (mock_env [hello_page; unreadable_page]) 50 sample_pdf None "eng".
Proof.
  apply (full_selection_is_no_selection
           (mock_env [hello_page; unreadable_page]) 50 sample_pdf "eng" 2).
  reflexivity.
Defined.

(** ** Which page each text belongs to *)

Lemma select_images_in_range env (images : list (image env)) (indices : list Z) :
  Forall (λ i, 0 ≤ i < Z.of_nat (length images)) indices →
  ∃ selected, select_images env images indices = inr selected
              ∧ Forall2 (λ i x, images !! Z.to_nat i = Some x) indices selected.
Proof.
  induction 1 as [|i indices [Hlo Hhi] _ (selected & Hsel & Hall)].
  - exists []. split; [reflexivity | constructor].
  - destruct (lookup_lt_is_Some_2 images (Z.to_nat i)) as [x Hx]; [lia|].
    exists (x :: selected). split; [|by constructor].
    cbn [select_images]. rewrite (proj2 (Z.ltb_lt _ _) Hhi).
    unfold getitemZ. cbv zeta. rewrite !(proj2 (Z.ltb_ge i 0) Hlo).
    rewrite (getitem_lookup _ _ x Hx), bind_inr, Hsel. reflexivity.
Qed.

(** A selection with a gap between its smallest and largest page: the
    range is rendered and one image per entry is picked out of it. *)
Lemma convert_pdf_to_images_gap env file_path (pages : list Z) lo hi q images :
  lo ∈ pages → hi ∈ pages → (∀ p, p ∈ pages → lo ≤ p ≤ hi) →
  lo ≤ q ≤ hi → q ∉ pages →
  renders_range env file_path lo hi images →
  ∃ selected, _convert_pdf_to_images env file_path pages = inr selected
              ∧ Forall2 (λ p x, images !! Z.to_nat (p - lo) = Some x) pages selected.
Proof.
  intros Hlo Hhi Hrange Hq Hgap (pdf_bytes & Hread & Hconv & Hlen).
  assert (py_min pages = inr lo) as Hmin
    by (apply py_min_spec; [done | intros p Hp; by apply Hrange]).
  assert (py_max pages = inr hi) as Hmax
    by (apply py_max_spec; [done | intros p Hp; by apply Hrange]).
  destruct (select_images_in_range env images ((λ p, p - lo) <$> pages))
    as (selected & Hsel & Hall).
  { apply Forall_fmap, Forall_forall. intros p Hp. simpl.
    specialize (Hrange p Hp). lia. }
  exists selected. split; [|by apply Forall2_fmap_l in Hall].
  unfold _convert_pdf_to_images. rewrite Hread, bind_inr.
  rewrite bool_decide_eq_false_2.
  2:{ intros Hone. destruct pages as [|x [|y pages]]; try discriminate Hone.
      apply list_elem_of_singleton in Hlo, Hhi. subst.
      apply Hgap, list_elem_of_singleton. lia. }
  rewrite Hmin, Hmax, !bind_inr, Hconv, !bind_inr.
  rewrite bool_decide_eq_true_2; [by rewrite ?Hmin, ?bind_inr, Hsel|].
  intros Hset. apply Hgap.
  apply (elem_of_list_to_set (C:=gset Z)). rewrite Hset.
  apply elem_of_list_to_set. unfold range. apply elem_of_seqZ. lia.
Qed.

Lemma images_of_full_range env (images : list (image env)) (lo : Z) :
  Forall2 (λ p x, images !! Z.to_nat (p - lo) = Some x)
    (seqZ lo (Z.of_nat (length images))) images.
Proof.
  apply Forall2_same_length_lookup. split; [by rewrite length_seqZ, Nat2Z.id|].
  intros i p x Hp Hx. apply lookup_seqZ in Hp as [-> _].
  by replace (Z.to_nat (lo + Z.of_nat i - lo)) with i by lia.
Qed.

Lemma page_texts_of_selected env t language lo (images selected : list (image env))
    (resolved : list Z) :
  Forall2 (λ p x, images !! Z.to_nat (p - lo) = Some x) resolved selected →
  imap (page_text env t resolved language) selected
  = text_of_page env t language lo images <$> resolved.
Proof.
  intros Hall. apply list_eq. intros i.
  rewrite list_lookup_imap, list_lookup_fmap.
  destruct (resolved !! i) as [p|] eqn:Hp.
  - destruct (Forall2_lookup_l _ _ _ _ _ Hall Hp) as (x & Hx & Himg).
    rewrite Hx. simpl. unfold page_text, text_of_page. rewrite Hp, Himg. done.
  - apply lookup_ge_None in Hp. rewrite (Forall2_length _ _ _ Hall) in Hp.
    by rewrite (lookup_ge_None_2 selected i).
Qed.

(** The texts of a selection without repetition, or with a gap, page by page. *)
Lemma extract_text_by_page env t file_path language total
    (pages : list Z) (lo hi : Z) images :
  readable env file_path total →
  Forall (λ p, 1 ≤ p ≤ total) pages →
  lo ∈ pages → hi ∈ pages → (∀ p, p ∈ pages → lo ≤ p ≤ hi) →
  NoDup pages ∨ (∃ q, lo ≤ q ≤ hi ∧ q ∉ pages) →
  renders_range env file_path lo hi images →
  extract_text env t file_path (Some pages) language
  = inr (text_of_page env t language lo images <$> sorted pages).
Proof.
  intros Hr Hvalid Hlo Hhi Hrange Hshape Hrender.
  assert (∀ p, p ∈ sorted pages ↔ p ∈ pages) as Hmem
    by (intros p; unfold sorted; by rewrite merge_sort_Permutation).
  assert (∃ selected, _convert_pdf_to_images env file_path (sorted pages) = inr selected
            ∧ Forall2 (λ p x, images !! Z.to_nat (p - lo) = Some x) (sorted pages) selected)
    as (selected & Hconv & Hall).
  { destruct (Exists_dec (λ q, q ∉ pages) (seqZ lo (hi - lo + 1))) as [Hgap|Hfull].
    - apply Exists_exists in Hgap as (q & Hq & Hnot). apply elem_of_seqZ in Hq.
      apply (convert_pdf_to_images_gap env file_path (sorted pages) lo hi q images);
        rewrite ?Hmem; try done; [intros p; rewrite Hmem; apply Hrange | lia].
    - destruct Hshape as [Hnodup|(q & Hq & Hnot)].
      2:{ destruct Hfull. apply Exists_exists. exists q. split; [|done].
          apply elem_of_seqZ. lia. }
      assert (∀ p, p ∈ pages ↔ lo ≤ p ≤ hi) as Hiff.
      { intros p. split; [apply Hrange|]. intros Hp.
        destruct (decide (p ∈ pages)) as [|Hn]; [done|]. destruct Hfull.
        apply Exists_exists. exists p. split; [apply elem_of_seqZ; lia | done]. }
      assert (sorted pages = seqZ lo (hi - lo + 1)) as Hseq.
      { apply (Sorted_unique Z.le).
        - apply Sorted_merge_sort; apply _.
        - replace (hi - lo + 1) with (hi + 1 - lo) by lia. apply Sorted_range.
        - unfold sorted. rewrite merge_sort_Permutation.
          apply NoDup_Permutation; [done | apply NoDup_seqZ|].
          intros p. rewrite Hiff, elem_of_seqZ. lia. }
      exists images. split.
      + apply (convert_pdf_to_images_contiguous env file_path (sorted pages) lo hi images);
          [| intros p; rewrite Hmem; apply Hiff | done].
        intros Hnil. rewrite <- Hmem, Hnil in Hlo. by apply elem_of_nil in Hlo.
      + destruct Hrender as (_ & _ & _ & Hlen). rewrite Hseq.
        replace (hi - lo + 1) with (Z.of_nat (length images)).
        * apply images_of_full_range.
        * rewrite Hlen. specialize (Hrange lo Hlo). lia. }
  rewrite (extract_text_rendered env t file_path (Some pages) language total
             (sorted pages) selected) by (done || by apply pages_to_process_valid).
  f_equal. by apply page_texts_of_selected.
Qed.

(** X15.  For a valid selection that has no repeated page, or that leaves a
    gap between its smallest page [lo] and its largest page [hi], text
    extraction returns one string per selected entry, in ascending page
    order: the i-th string is the filtered OCR text of the i-th smallest
    selected page (empty when OCR raises on it).  The renderer is asked for
    the whole range [lo..hi] and is assumed to return one image per page. *)
Theorem extract_text_ascending_pages env t file_path language total
    (pages : list Z) (lo hi : Z) images :
  readable env file_path total →
  Forall (λ p, 1 ≤ p ≤ total) pages →
  lo ∈ pages → hi ∈ pages → (∀ p, p ∈ pages → lo ≤ p ≤ hi) →
  NoDup pages ∨ (∃ q, lo ≤ q ≤ hi ∧ q ∉ pages) →
  renders_range env file_path lo hi images →
  ∃ texts,
    extract_text env t file_path (Some pages) language = inr texts
    ∧ length texts = length pages
    ∧ texts = text_of_page env t language lo images <$> sorted pages.
Proof.
  intros Hr Hvalid Hlo Hhi Hrange Hshape Hrender.
  exists (text_of_page env t language lo images <$> sorted pages). split_and!.
  - by apply (extract_text_by_page env t file_path language total pages lo hi images).
  - rewrite length_fmap. unfold sorted.
    by rewrite (Permutation_length (merge_sort_Permutation Z.le pages)).
  - reflexivity.
Qed.

Lemma extract_text_ascending_pages_witness :
  ∃ texts,
    extract_text (mock_env [hello_page; unreadable_page; hello_page; hello_page]) 50
      sample_pdf (Some [4; 1; 1]) "eng" = inr texts
    ∧ length texts = length [4; 1; 1]
    ∧ texts = text_of_page (mock_env [hello_page; unreadable_page; hello_page; hello_page])
                50 "eng" 1 [hello_page; unreadable_page; hello_page; hello_page]
              <$> sorted [4; 1; 1].
Proof.
  apply (extract_text_ascending_pages
           (mock_env [hello_page; unreadable_page; hello_page; hello_page]) 50
           sample_pdf "eng" 4 [4; 1; 1] 1 4).
  - split; reflexivity.
  - repeat constructor; lia.
  - right. left.
  - left.
  - intros p. rewrite !elem_of_cons, elem_of_nil. lia.
  - right. exists 2. split; [lia|]. rewrite !elem_of_cons, elem_of_nil. lia.
  - exists pdf_magic. split_and!; reflexivity.
Defined.

(** ** The text download *)

Lemma page_label_selected (pages : list Z) (i : nat) (p : Z) :
  pages !! i = Some p → page_label (Some pages) i = inr p.
Proof.
  intros Hp. destruct pages as [|q pages]; [done|].
  cbn [page_label]. by apply getitem_lookup.
Qed.

Lemma page_blocks_selected (pages : list Z) (texts : list string) :
  ∀ i, (i + length texts ≤ length pages)%nat →
       page_blocks (Some pages) i texts = inr (zip_with page_block (drop i pages) texts)
       ∧ display_pages (Some pages) i texts = inr ().
Proof.
  induction texts as [|text texts IH]; intros i Hlen.
  - split; [|reflexivity]. by destruct (drop i pages).
  - cbn [length] in Hlen.
    destruct (lookup_lt_is_Some_2 pages i) as [p Hp]; [lia|].
    destruct (IH (S i)) as [Hblocks Hshow]; [lia|].
    cbn [page_blocks display_pages].
    rewrite (page_label_selected pages i p Hp), !bind_inr, Hblocks, Hshow.
    split; [|reflexivity].
    rewrite (drop_S pages p i Hp). reflexivity.
Qed.

(** X16.  In the text download every block is headed by the page number
    taken from the selection *in the order the user picked the pages*, while
    the texts come in ascending page order: block i is headed by the i-th
    selected page and holds the text of the i-th smallest selected page.
    The headers are therefore right when the selection is ascending, and
    name the wrong pages otherwise.  (Same hypotheses as for X15.) *)
Theorem text_download_headers env t file_path language total
    (pages : list Z) (lo hi : Z) images :
  readable env file_path total →
  Forall (λ p, 1 ≤ p ≤ total) pages →
  lo ∈ pages → hi ∈ pages → (∀ p, p ∈ pages → lo ≤ p ≤ hi) →
  NoDup pages ∨ (∃ q, lo ≤ q ≤ hi ∧ q ∉ pages) →
  renders_range env file_path lo hi images →
  _perform_text_extraction env t file_path language (Some pages)
  = inr (join (newline +:+ newline)
           (zip_with page_block pages (text_of_page env t language lo images <$> sorted pages)))
  ∧ (Sorted Z.le pages →
     _perform_text_extraction env t file_path language (Some pages)
     = inr (join (newline +:+ newline)
              ((λ p, page_block p (text_of_page env t language lo images p)) <$> pages))).
Proof.
  intros Hr Hvalid Hlo Hhi Hrange Hshape Hrender.
  assert (_perform_text_extraction env t file_path language (Some pages)
          = inr (join (newline +:+ newline)
                   (zip_with page_block pages
                      (text_of_page env t language lo images <$> sorted pages)))) as Hmain.
  { unfold _perform_text_extraction.
    rewrite (extract_text_by_page env t file_path language total pages lo hi
               images) by done.
    rewrite bind_inr.
    destruct (page_blocks_selected pages
                (text_of_page env t language lo images <$> sorted pages) 0)
      as [Hblocks Hshow].
    { rewrite length_fmap. unfold sorted.
      by rewrite (Permutation_length (merge_sort_Permutation Z.le pages)). }
    by rewrite Hshow, bind_inr, Hblocks. }
  split; [exact Hmain|].
  intros Hsorted. rewrite Hmain, (sorted_of_sorted pages Hsorted). do 2 f_equal.
  clear. induction pages as [|p pages IH]; [done|]. csimpl. f_equal. exact IH.
Qed.

Lemma text_download_headers_witness :
  _perform_text_extraction
    (mock_env [page_saying "one"; page_saying "two"; page_saying "three"]) 50
    sample_pdf "eng" (Some [3; 1])
  = inr (join (newline +:+ newline)
           (zip_with page_block [3; 1]
              (text_of_page
                 (mock_env [page_saying "one"; page_saying "two"; page_saying "three"]) 50
                 "eng" 1 [page_saying "one"; page_saying "two"; page_saying "three"]
               <$> sorted [3; 1])))
  ∧ (Sorted Z.le [3; 1] →
     _perform_text_extraction
       (mock_env [page_saying "one"; page_saying "two"; page_saying "three"]) 50
       sample_pdf "eng" (Some [3; 1])
     = inr (join (newline +:+ newline)
              ((λ p, page_block p
                       (text_of_page
                          (mock_env [page_saying "one"; page_saying "two"; page_saying "three"])
                          50 "eng" 1
                          [page_saying "one"; page_saying "two"; page_saying "three"] p))
               <$> [3; 1]))).
Proof.
  apply (text_download_headers
           (mock_env [page_saying "one"; page_saying "two"; page_saying "three"]) 50
           sample_pdf "eng" 3 [3; 1] 1 3).
  - split; reflexivity.
  - repeat constructor; lia.
  - right. left.
  - left.
  - intros p. rewrite !elem_of_cons, elem_of_nil. lia.
  - left. repeat constructor; rewrite ?elem_of_cons, ?elem_of_nil; lia.
  - exists pdf_magic. split_and!; reflexivity.
Defined.

(** Picking page 3 and then page 1: the text of page 1 comes first, under
    the header of page 3. *)
Example text_download_picked_out_of_order :
  _perform_text_extraction
    (mock_env [page_saying "one"; page_saying "two"; page_saying "three"]) 50
    sample_pdf "eng" (Some [3; 1])
  = inr ("=== Page 3 ===" +:+ newline +:+ "one" +:+ newline +:+ newline
         +:+ "=== Page 1 ===" +:+ newline +:+ "three").
Proof. reflexivity. Qed.

(** X17.  [_perform_conversion] shows every failure of a pipeline under the
    title "Processing Failed" with the exception's own message, in text
    mode and in table mode (any conversion type other than "Text
    Extraction" is table mode); a failure to read the spreadsheet back that
    is not a [PDFProcessingError] is shown as "Unexpected Error". *)
Theorem conversion_failures_are_shown (env : collaborators) (open_rb : string → result bytes)
    (t : Z) (language : string) (selected_pages : option (list Z)) (pdf_path : Path) :
  (∀ e, extract_text env t pdf_path selected_pages language = inl e →
        _perform_conversion env open_rb t "Text Extraction" language selected_pages pdf_path
        = ErrorShown "Processing Failed" (str e))
  ∧ (∀ conversion_type e,
        conversion_type ≠ "Text Extraction" →
        extract_tables env t pdf_path selected_pages language = inl e →
        _perform_conversion env open_rb t conversion_type language selected_pages pdf_path
        = ErrorShown "Processing Failed" (str e))
  ∧ (∀ conversion_type excel_path tables_metadata e,
        conversion_type ≠ "Text Extraction" →
        extract_tables env t pdf_path selected_pages language
        = inr (excel_path, tables_metadata) →
        open_rb excel_path = inl e →
        isinstance e [PDFProcessingError] = false →
        _perform_conversion env open_rb t conversion_type language selected_pages pdf_path
        = ErrorShown "Unexpected Error" ("An unexpected error occurred: " +:+ str e)).
Proof.
  assert (∀ c, c = PDFReadError ∨ c = ValidationError ∨ c = OCRError ∨ c = ConversionError →
               ∀ msg, isinstance (Raise c msg) [PDFProcessingError] = true) as Hsub.
  { intros c Hc msg. by destruct Hc as [-> | [-> | [-> | ->]]]. }
  split_and!.
  - intros [c msg] He. unfold _perform_conversion, _perform_text_extraction.
    rewrite bool_decide_eq_true_2 by done. rewrite He, bind_inl.
    rewrite Hsub; [done|].
    apply handler_classes in He as [Hi|Hc]; cbn [class_of] in *; [|auto].
    apply isinstance_read_or_validation in Hi as [Hi|Hi]; cbn [class_of] in Hi; auto.
  - intros conversion_type [c msg] Hty He.
    unfold _perform_conversion, _perform_table_extraction.
    rewrite bool_decide_eq_false_2 by done. rewrite He, bind_inl.
    rewrite Hsub; [done|].
    apply handler_classes in He as [Hi|Hc]; cbn [class_of] in *; [|auto].
    apply isinstance_read_or_validation in Hi as [Hi|Hi]; cbn [class_of] in Hi; auto.
  - intros conversion_type excel_path tables_metadata e Hty He Hopen Hi.
    unfold _perform_conversion, _perform_table_extraction.
    rewrite bool_decide_eq_false_2 by done. rewrite He, bind_inr, Hopen, bind_inl.
    by rewrite Hi.
Qed.

(** An empty selection made in the page picker ends on the error panel. *)
Example conversion_of_empty_selection :
  _perform_conversion (mock_env [hello_page; hello_page]) (λ _, inr []) 50
    "Text Extraction" "eng" (Some []) sample_pdf
  = ErrorShown "Processing Failed"
      "OCR processing failed: Failed to convert PDF to images: min() arg is an empty sequence".
Proof. reflexivity. Qed.

(** ** The first implementation *)

Lemma comprehension_length {A B} (f : A → result B) (l : list A) (ys : list B) :
  comprehension f l = inr ys → length ys = length l.
Proof.
  revert ys. induction l as [|x l IH]; intros ys; cbn [comprehension].
  - by intros [= <-].
  - destruct (f x) as [e|y]; [discriminate|]. rewrite bind_inr.
    destruct (comprehension f l) as [e|ys']; [discriminate|].
    intros [= <-]. simpl. f_equal. by apply IH.
Qed.

Lemma comprehension_returns {A B} (f : A → result B) (l : list A) :
  Forall (λ x, returns (f x)) l → returns (comprehension f l).
Proof.
  induction 1 as [|x l [y Hy] _ [ys Hys]]; [by eexists|].
  cbn [comprehension]. rewrite Hy, bind_inr, Hys. by eexists.
Qed.

Lemma comprehension_first_failure {A B} (f : A → result B) (pre post : list A) (x : A)
    (e : exn) :
  Forall (λ x, returns (f x)) pre → f x = inl e →
  comprehension f (pre ++ x :: post) = inl e.
Proof.
  induction 1 as [|x0 pre [y Hy] _ IH]; intros Hx; cbn [comprehension app].
  - by rewrite Hx.
  - by rewrite Hy, bind_inr, IH.
Qed.

(** X18.  The first implementation renders the whole range between the
    smallest and the largest selected page: a selection whose smallest page
    is [lo] and largest page is [hi] yields [hi - lo + 1] texts and that
    count, one per page of the range, however few pages were selected. *)
Theorem legacy_selection_is_a_range (env : legacy_collaborators)
    (pdf_file_path language : string) (pages : list Z) (lo hi : Z)
    (pdf_bytes : bytes) (images : list (legacy_image env)) :
  lo ∈ pages → hi ∈ pages → (∀ p, p ∈ pages → lo ≤ p ≤ hi) →
  legacy_read env pdf_file_path = inr pdf_bytes →
  convert_range env pdf_bytes lo hi = inr images →
  length images = Z.to_nat (hi - lo + 1) →
  Forall (λ image_, returns (image_to_string env image_
                               (if bool_decide (language = "English") then "eng" else "fra")))
    images →
  ∃ texts, convert_pdf_to_text env pdf_file_path language (Some pages)
           = inr (texts, hi - lo + 1)
           ∧ length texts = Z.to_nat (hi - lo + 1).
Proof.
  intros Hlo Hhi Hrange Hread Hconv Hlen Hocr.
  assert (py_min pages = inr lo) as Hmin
    by (apply py_min_spec; [done | intros p Hp; by apply Hrange]).
  assert (py_max pages = inr hi) as Hmax
    by (apply py_max_spec; [done | intros p Hp; by apply Hrange]).
  destruct (comprehension_returns _ _ Hocr) as [texts Htexts].
  exists texts. split; [|by rewrite (comprehension_length _ _ _ Htexts)].
  unfold convert_pdf_to_text. rewrite Hread, bind_inr.
  destruct pages as [|p pages]; [by apply elem_of_nil in Hlo|].
  rewrite Hmin, Hmax, !bind_inr, Hconv, bind_inr, Htexts, bind_inr.
  unfold mret, result_ret. do 2 f_equal. rewrite Hlen. specialize (Hrange lo Hlo). lia.
Qed.

Lemma legacy_selection_is_a_range_witness :
  ∃ texts, convert_pdf_to_text (legacy_mock (replicate 6 (inr "text"))) "sample.pdf" "English"
             (Some [5; 2])
           = inr (texts, 5 - 2 + 1)
           ∧ length texts = Z.to_nat (5 - 2 + 1).
Proof.
  apply (legacy_selection_is_a_range (legacy_mock (replicate 6 (inr "text")))
           "sample.pdf" "English" [5; 2] 2 5 pdf_magic (replicate 4 (inr "text"))).
  - right. left.
  - left.
  - intros p. rewrite !elem_of_cons, elem_of_nil. lia.
  - reflexivity.
  - reflexivity.
  - reflexivity.
  - repeat constructor; by eexists.
Defined.

(** X19.  The first implementation is all or nothing: with no selection,
    if OCR raises on some page after succeeding on the pages before it, the
    whole call raises that exception, unwrapped, and no text is returned;
    when the call returns, the page count it reports is the number of
    texts. *)
Theorem legacy_ocr_failure_aborts (env : legacy_collaborators)
    (pdf_file_path language : string) (pdf_bytes : bytes)
    (before after : list (legacy_image env)) (image_ : legacy_image env) (e : exn) :
  legacy_read env pdf_file_path = inr pdf_bytes →
  convert_all env pdf_bytes = inr (before ++ image_ :: after) →
  Forall (λ x, returns (image_to_string env x
                          (if bool_decide (language = "English") then "eng" else "fra")))
    before →
  image_to_string env image_ (if bool_decide (language = "English") then "eng" else "fra")
  = inl e →
  convert_pdf_to_text env pdf_file_path language None = inl e
  ∧ ∀ selection texts n,
      convert_pdf_to_text env pdf_file_path language selection = inr (texts, n) →
      n = Z.of_nat (length texts).
Proof.
  intros Hread Hconv Hbefore Hfail. split.
  - unfold convert_pdf_to_text. rewrite Hread, bind_inr, Hconv, bind_inr.
    by rewrite (comprehension_first_failure _ before after image_ e).
  - intros selection texts n. unfold convert_pdf_to_text. rewrite Hread, bind_inr.
    match goal with |- (?m ≫= _) = _ → _ => destruct m as [e0|imgs] end; [discriminate|].
    rewrite bind_inr.
    destruct (comprehension _ imgs) as [e0|ys] eqn:Hys; [discriminate|].
    rewrite bind_inr. intros [= <- <-]. by rewrite (comprehension_length _ _ _ Hys).
Qed.

Lemma legacy_ocr_failure_aborts_witness :
  convert_pdf_to_text
    (legacy_mock [inr "one"; inl (Raise LibraryError "tesseract failed"); inr "three"])
    "sample.pdf" "French" None
  = inl (Raise LibraryError "tesseract failed")
  ∧ ∀ selection texts n,
      convert_pdf_to_text
        (legacy_mock [inr "one"; inl (Raise LibraryError "tesseract failed"); inr "three"])
        "sample.pdf" "French" selection = inr (texts, n) →
      n = Z.of_nat (length texts).
Proof.
  apply (legacy_ocr_failure_aborts
           (legacy_mock [inr "one"; inl (Raise LibraryError "tesseract failed"); inr "three"])
           "sample.pdf" "French" pdf_magic [inr "one"] [inr "three"]
           (inl (Raise LibraryError "tesseract failed"))).
  - reflexivity.
  - reflexivity.
  - repeat constructor. by eexists.
  - reflexivity.
Defined.

(** ** When the confidence filter returns *)

Lemma filter_loop_returns_iff (t : Z) (conf : list conf_value) (text : list string) :
  ∀ (i : nat) (acc : list string),
    returns (filter_loop t conf i text acc)
    ↔ ∀ k, (k < length text)%nat →
           ∃ c n, conf !! (i + k)%nat = Some c ∧ int_ c = inr n.
Proof.
  induction text as [|word text IH]; intros i acc.
  - split; [intros _ k Hk; simpl in Hk; lia | intros _; by eexists].
  - cbn [filter_loop length]. split.
    + intros Hret k Hk. unfold getitem in Hret.
      destruct (conf !! i) as [c|] eqn:Hc; [|by destruct Hret].
      rewrite bind_mret in Hret.
      destruct (int_ c) as [e|n] eqn:Hn; [by destruct Hret|]. rewrite bind_inr in Hret.
      destruct k as [|k].
      * rewrite Nat.add_0_r. eauto.
      * replace (i + S k)%nat with (S i + k)%nat by lia.
        destruct (_ && _); by apply (proj1 (IH (S i) _) Hret); lia.
    + intros Hall. destruct (Hall 0%nat) as (c & n & Hc & Hn); [lia|].
      rewrite Nat.add_0_r in Hc. rewrite (getitem_lookup _ _ c Hc), bind_inr, Hn, bind_inr.
      assert (∀ k, (k < length text)%nat →
                   ∃ c n, conf !! (S i + k)%nat = Some c ∧ int_ c = inr n) as Hrest.
      { intros k Hk. replace (S i + k)%nat with (i + S k)%nat by lia. apply Hall. lia. }
      destruct (_ && _); by apply IH.
Qed.

(** The loop on words whose confidence entries convert to the given
    integers; what follows those entries in the column is not read. *)
Lemma filter_loop_converted (t : Z) (words : list (string * Z)) :
  ∀ (pre conf surplus : list conf_value) (entries : list conf_value) (acc : list string),
    conf = pre ++ entries ++ surplus →
    Forall2 (λ c wc, int_ c = inr wc.2) entries words →
    filter_loop t conf (length pre) (words.*1) acc = inr (acc ++ retained t words).
Proof.
  induction words as [|[w c] words IH]; intros pre conf surplus entries acc -> Hall.
  - simpl. by rewrite app_nil_r.
  - apply Forall2_cons_inv_r in Hall as (c0 & entries' & Hc0 & Hall & ->).
    cbn [fmap list_fmap fst snd filter_loop] in *.
    rewrite (getitem_lookup _ _ c0) by (rewrite <- app_comm_cons; apply list_lookup_middle, eq_refl).
    rewrite bind_inr, Hc0, bind_inr, keep_condition.
    specialize (IH (pre ++ [c0]) ((pre ++ [c0]) ++ entries' ++ surplus) surplus entries').
    rewrite length_app, Nat.add_1_r in IH.
    replace (pre ++ (c0 :: entries') ++ surplus) with ((pre ++ [c0]) ++ entries' ++ surplus)
      by (by rewrite <- app_assoc).
    unfold retained. rewrite filter_cons. simpl.
    case_bool_decide as Hk; rewrite decide_bool_decide.
    + rewrite IH by done. rewrite (bool_decide_eq_true_2 _ Hk). simpl.
      by rewrite <- app_assoc.
    + rewrite IH by done. by rewrite (bool_decide_eq_false_2 _ Hk).
Qed.

(** The loop on a confidence column that ends before the word column. *)
Lemma filter_loop_short (t : Z) (words : list (string * Z)) (missing : list string) :
  ∀ (pre : list conf_value) (acc : list string),
    missing ≠ [] →
    filter_loop t (pre ++ (ConfInt <$> words.*2)) (length pre) (words.*1 ++ missing) acc
    = raise IndexError "list index out of range".
Proof.
  induction words as [|[w c] words IH]; intros pre acc Hne.
  - destruct missing as [|word missing]; [done|].
    cbn [fmap list_fmap app filter_loop]. unfold getitem.
    rewrite app_nil_r, (lookup_ge_None_2 pre (length pre)) by lia. reflexivity.
  - cbn [fmap list_fmap fst snd app filter_loop].
    rewrite (getitem_lookup _ _ (ConfInt c)) by apply list_lookup_middle, eq_refl.
    rewrite bind_inr. cbn [int_]. rewrite bind_mret.
    specialize (IH (pre ++ [ConfInt c])).
    rewrite <- app_assoc, length_app, Nat.add_1_r in IH. simpl in IH.
    destruct (_ && _); by apply IH.
Qed.

(** X20.  The filter returns a text exactly when every word has a
    confidence entry at its index that [int] converts; a confidence column
    shorter than the word column makes it raise [IndexError], whatever the
    threshold, and surplus confidence entries are ignored. *)
Theorem filter_returns_iff (t : Z) (data : text_data) :
  (returns (_filter_text_by_confidence t data)
   ↔ ∀ k, (k < length (td_text data))%nat →
          ∃ c n, td_conf data !! k = Some c ∧ int_ c = inr n)
  ∧ (∀ words surplus,
        data = TextData (words.*1) ((ConfInt <$> words.*2) ++ surplus) →
        _filter_text_by_confidence t data = inr (join " " (retained t words)))
  ∧ (∀ words missing,
        missing ≠ [] →
        data = TextData (words.*1 ++ missing) (ConfInt <$> words.*2) →
        _filter_text_by_confidence t data = raise IndexError "list index out of range").
Proof.
  split_and!.
  - unfold _filter_text_by_confidence, filtered_words.
    rewrite <- (filter_loop_returns_iff t (td_conf data) (td_text data) 0 []).
    unfold returns. destruct (filter_loop _ _ _ _ _) as [e|ws].
    + split; intros [x Hx]; discriminate Hx.
    + split; intros _; by eexists.
  - intros words surplus ->. unfold _filter_text_by_confidence, filtered_words.
    cbn [td_text td_conf].
    rewrite (filter_loop_converted t words [] ((ConfInt <$> words.*2) ++ surplus) surplus
               (ConfInt <$> words.*2) []); [done | done |].
    clear. induction words as [|[w c] words IH]; constructor; [done | exact IH].
  - intros words missing Hne ->. unfold _filter_text_by_confidence, filtered_words.
    cbn [td_text td_conf].
    pose proof (filter_loop_short t words missing [] [] Hne) as Hshort.
    cbn [app length] in Hshort. by rewrite Hshort.
Qed.

(** ** Confidences given as decimal strings *)

Lemma digit_of_pretty_N_char (n : N) :
  (n < 10)%N → digit_of (pretty_N_char n) = Some (Z.of_N n).
Proof.
  intros Hn.
  assert (n = 0 ∨ n = 1 ∨ n = 2 ∨ n = 3 ∨ n = 4 ∨ n = 5 ∨ n = 6 ∨ n = 7 ∨ n = 8 ∨ n = 9)%N
    as Hcases by lia.
  repeat (destruct Hcases as [->|Hcases]; [reflexivity|]). by subst.
Qed.

Lemma digit_not_space (c : ascii) : is_Some (digit_of c) → isspace c = false.
Proof.
  unfold digit_of, isspace. intros [d Hd].
  destruct (N.leb_spec 48 (N_of_ascii c)), (N.leb_spec (N_of_ascii c) 57);
    try discriminate Hd.
  repeat match goal with
         | |- context [(?a <=? ?b)%N] => destruct (N.leb_spec a b); try lia
         | |- context [(?a =? ?b)%N] => destruct (N.eqb_spec a b); try lia
         end; reflexivity.
Qed.

Lemma digits_only_no_space (s : string) : digits_only s → no_space s.
Proof.
  induction s as [|c s IH]; [done|]. intros [Hc Hs].
  split; [by apply digit_not_space | by apply IH].
Qed.

Lemma digits_only_app (a b : string) :
  digits_only a → digits_only b → digits_only (a +:+ b).
Proof.
  induction a as [|c a IH]; [done|]. intros [Hc Ha] Hb.
  rewrite string_app_cons. split; [done | by apply IH].
Qed.

Lemma decimal_value_snoc (d : string) (c : ascii) (acc : Z) :
  decimal_value (d +:+ String c EmptyString) acc
  = 10 * decimal_value d acc + default 0 (digit_of c).
Proof.
  revert acc. induction d as [|x d IH]; intros acc; [reflexivity|].
  rewrite string_app_cons. cbn [decimal_value]. apply IH.
Qed.

(** The digits that [pretty] puts in front of the accumulator. *)
Lemma pretty_N_go_digits (x : N) :
  ∀ s, ∃ d, pretty_N_go x s = d +:+ s
            ∧ digits_only d
            ∧ decimal_value d 0 = Z.of_N x
            ∧ ((0 < x)%N → d ≠ "").
Proof.
  induction (N.lt_wf_0 x) as [x _ IH]; intros s.
  destruct (decide (x = 0%N)) as [->|Hx].
  - exists "". rewrite pretty_N_go_0. split_and!; [done | done | done | lia].
  - assert (0 < x)%N as Hpos by lia.
    rewrite pretty_N_go_step by done.
    destruct (IH (x `div` 10)%N (N.div_lt x 10 Hpos eq_refl)
                (String (pretty_N_char (x `mod` 10)) s)) as (d & -> & Hd & Hval & _).
    assert (x `mod` 10 < 10)%N as Hmod by (apply N.mod_lt; lia).
    exists (d +:+ String (pretty_N_char (x `mod` 10)) EmptyString). split_and!.
    + by rewrite string_app_assoc.
    + apply digits_only_app; [done|]. split; [|done].
      rewrite digit_of_pretty_N_char by done. by eexists.
    + rewrite decimal_value_snoc, Hval, digit_of_pretty_N_char by done. simpl.
      pose proof (N.div_mod x 10). lia.
    + intros _. by destruct d.
Qed.

Lemma int_digits_digits (s : string) :
  ∀ acc, digits_only s → int_digits s acc false = Some (decimal_value s acc).
Proof.
  induction s as [|c s IH]; intros acc; [done|]. intros [[d Hd] Hs].
  cbn [int_digits decimal_value]. rewrite Hd. simpl. by apply IH.
Qed.

Lemma int_unsigned_digits (d : string) :
  digits_only d → d ≠ "" → int_unsigned d = Some (decimal_value d 0).
Proof.
  destruct d as [|c d]; [done|]. intros [[v Hv] Hd] _.
  cbn [int_unsigned decimal_value]. rewrite Hv. simpl.
  by rewrite int_digits_digits.
Qed.

Lemma rev_app_rev_app (s1 : string) :
  ∀ s2 s3, String.rev_app (String.rev_app s1 s2) s3 = String.rev_app s2 (s1 +:+ s3).
Proof.
  induction s1 as [|a s1 IH]; intros s2 s3; [reflexivity|].
  cbn [String.rev_app]. by rewrite IH.
Qed.

Lemma no_space_rev_app (s1 : string) :
  ∀ s2, no_space s1 → no_space s2 → no_space (String.rev_app s1 s2).
Proof.
  induction s1 as [|a s1 IH]; intros s2; [done|]. intros [Ha Hs1] Hs2.
  cbn [String.rev_app]. apply IH; [done | by split].
Qed.

Lemma lstrip_no_space (s : string) : no_space s → lstrip s = s.
Proof. destruct s as [|c s]; [done|]. intros [Hc _]. cbn [lstrip]. by rewrite Hc. Qed.

Lemma strip_no_space (s : string) : no_space s → strip s = s.
Proof.
  intros Hs. unfold strip, rstrip. rewrite (lstrip_no_space s Hs).
  rewrite lstrip_no_space by (by apply no_space_rev_app).
  unfold String.rev. by rewrite rev_app_rev_app, string_app_nil_r.
Qed.

Lemma int_literal_unsigned (s : string) (c : ascii) (r : string) :
  strip s = String c r → is_Some (digit_of c) →
  int_literal s = int_unsigned (String c r).
Proof.
  intros Hs Hc. unfold int_literal. rewrite Hs.
  destruct c as [[] [] [] [] [] [] [] []];
    first [ reflexivity | exfalso; destruct Hc as [d Hd]; vm_compute in Hd; discriminate Hd ].
Qed.

Lemma int_literal_repr_int (n : Z) : int_literal (repr_int n) = Some n.
Proof.
  unfold repr_int, pretty, pretty_Z. destruct n as [|p|p].
  - reflexivity.
  - unfold pretty, pretty_positive, pretty, pretty_N.
    rewrite decide_False by done.
    destruct (pretty_N_go_digits (N.pos p) "") as (d & Hd & Hdig & Hval & Hne).
    rewrite string_app_nil_r in Hd. rewrite Hd.
    destruct d as [|c r]; [by destruct Hne|].
    rewrite (int_literal_unsigned _ c r).
    + rewrite int_unsigned_digits by done. by rewrite Hval.
    + by apply strip_no_space, digits_only_no_space.
    + by destruct Hdig.
  - unfold pretty, pretty_positive, pretty, pretty_N.
    rewrite decide_False by done.
    destruct (pretty_N_go_digits (N.pos p) "") as (d & Hd & Hdig & Hval & Hne).
    rewrite string_app_nil_r in Hd. rewrite Hd.
    change ("-" +:+ d) with (String "-"%char d).
    unfold int_literal. rewrite strip_no_space.
    + cbv beta iota.
      rewrite int_unsigned_digits by (done || apply Hne; lia). rewrite Hval. reflexivity.
    + split; [reflexivity | by apply digits_only_no_space].
Qed.

(** X21.  [int] reads back the decimal text of every integer, so a
    confidence column of decimal strings (what the repository's tests feed
    the filter) gives the same page text as the column of the integers
    themselves: the words whose confidence is at least the threshold and
    whose trimmed text is non-empty, joined by single spaces. *)
Theorem filter_with_string_confidences (t : Z) (words : list (string * Z)) :
  (∀ n, int_ (ConfStr (repr_int n)) = inr n)
  ∧ _filter_text_by_confidence t
      (TextData (words.*1) ((λ n, ConfStr (repr_int n)) <$> words.*2))
    = inr (join " " (retained t words)).
Proof.
  assert (∀ n, int_ (ConfStr (repr_int n)) = inr n) as Hint
    by (intros n; cbn [int_]; by rewrite int_literal_repr_int).
  split; [exact Hint|].
  unfold _filter_text_by_confidence, filtered_words. cbn [td_text td_conf].
  rewrite (filter_loop_converted t words [] _ []
             ((λ n, ConfStr (repr_int n)) <$> words.*2) []).
  - reflexivity.
  - by rewrite app_nil_r.
  - clear -Hint. induction words as [|[w c] words IH]; constructor; [apply Hint | exact IH].
Qed.

(** ** Configuration *)

Example default_document_is_the_defaults :
  Config.from_dict Config._get_default_config = inr Config.defaults
  ∧ Config.from_dict (Config.VDict []) = inr Config.defaults
  ∧ Config.to_dict Config.defaults = Config._get_default_config.
Proof. split_and!; reflexivity. Qed.

(** X22.  [AppConfig.to_dict] and [AppConfig.from_dict] round-trip: a
    configuration whose [supported_languages] is not [None] is read back
    unchanged from its dictionary; and every configuration that [from_dict]
    builds has [supported_languages] different from [None]
    ([__post_init__] puts the default list there). *)
Theorem from_dict_to_dict :
  (∀ config, Config.supported_languages (Config.ocr config) ≠ Config.VNone →
             Config.from_dict (Config.to_dict config) = inr config)
  ∧ (∀ config_dict config,
        Config.from_dict config_dict = inr config →
        Config.supported_languages (Config.ocr config) ≠ Config.VNone
        ∧ Config.from_dict (Config.to_dict config) = inr config).
Proof.
  assert (∀ config, Config.supported_languages (Config.ocr config) ≠ Config.VNone →
                    Config.from_dict (Config.to_dict config) = inr config) as Hround.
  { intros [[path lang langs thr] [size tmp out caching workers] [title up preview theme]
              [lvl fmt file console]] Hlangs.
    cbn in Hlangs. destruct langs; [done | reflexivity..]. }
  split; [exact Hround|].
  intros config_dict config Hfrom.
  assert (Config.supported_languages (Config.ocr config) ≠ Config.VNone) as Hlangs.
  { unfold Config.from_dict in Hfrom.
    apply bind_returns in Hfrom as (ocr_kw & _ & Hfrom).
    apply bind_returns in Hfrom as (ocr_ & Hocr & Hfrom).
    repeat (apply bind_returns in Hfrom as (? & _ & Hfrom)).
    injection Hfrom as <-. cbn [Config.ocr].
    unfold Config.OCRConfig_init in Hocr.
    apply bind_returns in Hocr as (kw & _ & Hocr). injection Hocr as <-.
    cbn [Config.supported_languages].
    by destruct (Config.field kw "supported_languages" Config.VNone). }
  split; [done | by apply Hround].
Qed.










(** The environment of the witness, end to end: the limit becomes the
    integer 25, the log level the text DEBUG, the rest stays. *)
Example load_config_sample_environment :
  Config.load_config no_files sample_environment "config/config.yaml"
  = inr {| Config.ocr := Config.ocr Config.defaults;
           Config.processing :=
             {| Config.max_file_size_mb := Config.VInt 25;
                Config.temp_dir := Config.VStr "/tmp";
                Config.output_dir := Config.VStr "./output";
                Config.enable_caching := Config.VBool true;
                Config.max_workers := Config.VInt 4 |};
           Config.ui := Config.ui Config.defaults;
           Config.logging :=
             {| Config.level := Config.VStr "DEBUG";
                Config.format := Config.VStr "standard";
                Config.file_path := Config.VNone;
                Config.console_output := Config.VBool true |} |}.
Proof. reflexivity. Qed.



(** ** Document metadata *)

(** tests/test_pdf_processor.py, test_extract_metadata_success *)
Example test_extract_metadata_success :
  ∃ metadata,
    extract_metadata (mock_env [hello_page; hello_page]) mock_metadata sample_pdf = inr metadata
    ∧ metadata !! "page_count" = Some (PyInt 2)
    ∧ metadata !! "file_name" = Some (PyStr "sample.pdf")
    ∧ metadata !! "title" = Some (PyStr "Test PDF")
    ∧ metadata !! "author" = Some (PyStr "Test Author")
    ∧ is_Some (metadata !! "file_size").
Proof. eexists. split_and!; [reflexivity..|]. by eexists. Qed.

Lemma inr_eq_inv {A} (x y : A) : (inr x : result A) = inr y → x = y.
Proof. by intros [= ->]. Qed.

(** X25.  When [extract_metadata] returns, the document has passed
    [validate_file], the [page_count] entry is the count that
    [get_page_count] returns, and the size and the name are present.  The
    seven descriptive entries are present exactly when the document has
    non-empty information, an absent piece of information being the empty
    string.  Every failure comes out as a [PDFReadError]. *)
Theorem extract_metadata_spec (env : collaborators) (src : metadata_source) (file_path : Path) :
  (∀ metadata,
      extract_metadata env src file_path = inr metadata →
      ∃ page_count file_size document_info,
        get_page_count env file_path = inr page_count
        ∧ reader_metadata src file_path = inr document_info
        ∧ metadata !! "page_count" = Some (PyInt page_count)
        ∧ metadata !! "file_size" = Some (PyInt file_size)
        ∧ metadata !! "file_name" = Some (PyStr (file_name src file_path))
        ∧ (∀ key, key ∈ info_keys →
                  is_Some (metadata !! key)
                  ↔ ∃ pdf_metadata, document_info = Some pdf_metadata ∧ pdf_metadata ≠ ∅)
        ∧ (∀ pdf_metadata, document_info = Some pdf_metadata → pdf_metadata ≠ ∅ →
                           metadata !! "title" = Some (PyStr (info_get pdf_metadata "/Title"))
                           ∧ metadata !! "author"
                             = Some (PyStr (info_get pdf_metadata "/Author"))))
  ∧ (∀ e, extract_metadata env src file_path = inl e → class_of e = PDFReadError).
Proof.
  split.
  - intros metadata Hm. unfold extract_metadata, try_except in Hm.
    destruct (validate_file env file_path) as [e|b] eqn:Hv;
      [rewrite bind_inl in Hm; destruct (isinstance _ _); discriminate Hm|].
    rewrite bind_inr in Hm.
    destruct (reader_pages env file_path) as [e|page_count] eqn:Hp;
      [rewrite bind_inl in Hm; destruct (isinstance _ _); discriminate Hm|].
    rewrite bind_inr in Hm.
    destruct (stat_size src file_path) as [e|file_size];
      [rewrite bind_inl in Hm; destruct (isinstance _ _); discriminate Hm|].
    rewrite bind_inr in Hm.
    destruct (reader_metadata src file_path) as [e|document_info];
      [rewrite bind_inl in Hm; destruct (isinstance _ _); discriminate Hm|].
    rewrite bind_inr in Hm.
    exists page_count, file_size, document_info.
    assert (get_page_count env file_path = inr page_count) as Hcount
      by (unfold get_page_count; by rewrite Hv, bind_inr, Hp).
    assert (∀ key, key ∈ info_keys →
                   (list_to_map [("page_count", PyInt page_count); ("file_size", PyInt file_size);
                                 ("file_name", PyStr (file_name src file_path))]
                    : gmap string pyval) !! key = None) as Hbase.
    { intros key Hkey. unfold info_keys in Hkey.
      repeat (apply elem_of_cons in Hkey as [->|Hkey]; [reflexivity|]).
      by apply elem_of_nil in Hkey. }
    destruct document_info as [pdf_metadata|].
    + case_bool_decide as Hne; apply inr_eq_inv in Hm as <-.
      * split_and!; [done | done | reflexivity.. | |].
        -- intros key Hkey. split; [intros _; eauto|]. intros _.
           unfold info_keys in Hkey.
           repeat (apply elem_of_cons in Hkey as [->|Hkey]; [by eexists|]).
           by apply elem_of_nil in Hkey.
        -- intros ? [= <-] _. split; reflexivity.
      * split_and!; [done | done | reflexivity.. | |].
        -- intros key Hkey. rewrite (Hbase key Hkey). split.
           ++ intros [? [=]].
           ++ intros (m & [= <-] & Hm). by destruct Hne.
        -- intros ? [= <-] Hm. by destruct Hne.
    + apply inr_eq_inv in Hm as <-. split_and!; [done | done | reflexivity.. | |].
      * intros key Hkey. rewrite (Hbase key Hkey). split.
        -- intros [? [=]].
        -- intros (m & [=] & _).
      * intros ? [=].
  - intros e He. unfold extract_metadata in He.
    apply handler_classes in He as [Hi| ->]; [by apply isinstance_read | done].
Qed.

(** ** Table records *)

(** X26.  [table_info] never fails on an object that lacks the attributes
    it reads: such an object gets the record with page "Unknown", no
    bounding box, no confidence and zero rows and columns.  For a table
    whose [content] is a dictionary of rows with a row 0 that is a list of
    cells, [rows] is the number of rows and [columns] the number of cells of
    row 0; an empty [content] gives zero rows and columns. *)
Theorem table_info_dimensions (i : nat) (table : pyobject) :
  ((∀ name, table name = Absent) →
   table_info i table
   = inr (list_to_map
            [("table_id", PyInt (Z.of_nat i + 1)); ("page_number", PyStr "Unknown");
             ("bbox", PyNone); ("confidence", PyNone);
             ("rows", PyInt 0); ("columns", PyInt 0)]))
  ∧ (∀ rows cells j,
        (∀ name e, table name ≠ Raising e) →
        table "content" = Value (PyDict rows) →
        list_find (λ kv, kv.1 = 0) rows = Some (j, (0, PyList cells)) →
        ∃ info, table_info i table = inr info
                ∧ info !! "rows" = Some (PyInt (Z.of_nat (length rows)))
                ∧ info !! "columns" = Some (PyInt (Z.of_nat (length cells))))
  ∧ ((∀ name e, table name ≠ Raising e) →
     table "content" = Value (PyDict []) →
     ∃ info, table_info i table = inr info
             ∧ info !! "rows" = Some (PyInt 0)
             ∧ info !! "columns" = Some (PyInt 0)).
Proof.
  assert (∀ name default,
             (∀ name e, table name ≠ Raising e) → ∃ v, getattr table name default = inr v)
    as Hget.
  { intros name default Hok. unfold getattr.
    destruct (table name) as [|v|e] eqn:Hn; [by eexists | by eexists |].
    by destruct (Hok name e). }
  split_and!.
  - intros Habsent. unfold table_info, getattr, hasattr. rewrite !Habsent. reflexivity.
  - intros rows cells j Hok Hcontent Hrow.
    destruct (Hget "page" (PyStr "Unknown") Hok) as [page Hpage].
    destruct (Hget "bbox" PyNone Hok) as [bbox Hbbox].
    destruct (Hget "confidence" PyNone Hok) as [conf Hconf].
    unfold table_info. rewrite Hpage, Hbbox, Hconf, !bind_inr.
    assert (length rows ≠ 0%nat) as Hne by (destruct rows; [discriminate Hrow | done]).
    unfold hasattr, attr. rewrite Hcontent.
    repeat first [ rewrite bind_mret | progress cbv beta iota
                 | progress cbn [len truthy negb] ].
    rewrite (bool_decide_eq_false_2 _ Hne).
    repeat first [ rewrite bind_mret | progress cbv beta iota
                 | progress cbn [len truthy negb first_item] ].
    rewrite Hrow.
    repeat first [ rewrite bind_mret | progress cbv beta iota | progress cbn [len] ].
    eexists. split; [reflexivity|]. split; reflexivity.
  - intros Hok Hcontent.
    destruct (Hget "page" (PyStr "Unknown") Hok) as [page Hpage].
    destruct (Hget "bbox" PyNone Hok) as [bbox Hbbox].
    destruct (Hget "confidence" PyNone Hok) as [conf Hconf].
    unfold table_info. rewrite Hpage, Hbbox, Hconf, !bind_inr.
    unfold hasattr, attr. rewrite Hcontent.
    eexists. split; [reflexivity|]. split; reflexivity.
Qed.
